(** * Documentation query agent (agent.py): model and properties

    The script is a four-stage pipeline (fetch, index, retrieve, answer)
    followed by an interactive loop.  Everything the script does itself
    (string handling, control flow, exception handling, the order of the
    printed messages) is modelled below, stage by stage, in the order of the
    source.  What the script delegates to libraries is either modelled from
    the library's documented behaviour (the truthiness and the string
    methods of Python, [find_all] and [get_text] of BeautifulSoup over a
    parsed tree, [raise_for_status] of requests, [open_dir] and the writer of
    whoosh) or left as a variable of the section [Agent] (the network, the
    HTML parser, the query matcher and the scoring function of whoosh, the
    question-answering model). *)

From Stdlib Require Import List Bool Arith Lia Ascii String DecimalString.
From Stdlib Require Import Sorted.
Import ListNotations.

Local Open Scope list_scope.
Local Open Scope string_scope.

(** ** Python strings

    A [str] is modelled as a [string] whose characters are the code points
    below 256. *)
Module Py.

Definition LF : ascii := "010"%char.
Definition nl : string := String LF EmptyString.

(** [str.isspace] on one character: the code points below 256 that Python
    treats as whitespace. *)
Definition isspace (c : ascii) : bool :=
  let n := nat_of_ascii c in
  (((9 <=? n) && (n <=? 13)) || ((28 <=? n) && (n <=? 32))
   || (n =? 133) || (n =? 160))%nat.

Definition is_empty (s : string) : bool :=
  match s with EmptyString => true | String _ _ => false end.

(** Truthiness of a [str]: the empty string is false. *)
Definition truthy (s : string) : bool := negb (is_empty s).

Fixpoint lstrip (s : string) : string :=
  match s with
  | EmptyString => EmptyString
  | String c r => if isspace c then lstrip r else s
  end.

Fixpoint rstrip (s : string) : string :=
  match s with
  | EmptyString => EmptyString
  | String c r =>
      let r' := rstrip r in
      if isspace c && is_empty r' then EmptyString else String c r'
  end.

(** [str.strip()] with no argument. *)
Definition strip (s : string) : string := lstrip (rstrip s).

(** [str.lower] on one character (ASCII and Latin-1 capitals). *)
Definition lower_char (c : ascii) : ascii :=
  let n := nat_of_ascii c in
  if (((65 <=? n) && (n <=? 90))
      || ((192 <=? n) && (n <=? 222) && negb (n =? 215)))%nat
  then ascii_of_nat (n + 32) else c.

Fixpoint lower (s : string) : string :=
  match s with
  | EmptyString => EmptyString
  | String c r => String (lower_char c) (lower r)
  end.

(** [sep.join(parts)] *)
Fixpoint join (sep : string) (parts : list string) : string :=
  match parts with
  | [] => EmptyString
  | [p] => p
  | p :: rest => p ++ sep ++ join sep rest
  end.

(** Puts a character in front of the first piece of a split. *)
Definition push_front (c : ascii) (pieces : list string) : list string :=
  match pieces with
  | [] => [String c EmptyString]
  | p :: rest => String c p :: rest
  end.

(** [s.split('\n\n')]: the pieces between the occurrences of two line
    feeds in a row, scanned from the left without overlap; a string
    without the separator is its own single piece. *)
Fixpoint split_blank (s : string) : list string :=
  match s with
  | EmptyString => [EmptyString]
  | String a s' =>
      match s' with
      | String b r =>
          if Ascii.eqb a LF && Ascii.eqb b LF
          then EmptyString :: split_blank r
          else push_front a (split_blank s')
      | EmptyString => [String a EmptyString]
      end
  end.

(** [s[:n]] *)
Definition take (n : nat) (s : string) : string := substring 0 n s.

(** [sub in s] *)
Definition contains (s sub : string) : Prop :=
  exists pre post, s = pre ++ sub ++ post.

(** [(nl ++ nl) in s], as a test. *)
Fixpoint has_blank (s : string) : bool :=
  match s with
  | EmptyString => false
  | String a s' =>
      match s' with
      | String b _ => (Ascii.eqb a LF && Ascii.eqb b LF) || has_blank s'
      | EmptyString => false
      end
  end.

(** [s.startswith(nl)] and [s.endswith(nl)] *)
Definition starts_with_nl (s : string) : bool :=
  match s with
  | String a _ => Ascii.eqb a LF
  | EmptyString => false
  end.

Fixpoint ends_with_nl (s : string) : bool :=
  match s with
  | EmptyString => false
  | String a EmptyString => Ascii.eqb a LF
  | String _ r => ends_with_nl r
  end.

(** The first, respectively the last, character exists and is not
    whitespace. *)
Definition starts_nonspace (s : string) : bool :=
  match s with
  | String a _ => negb (isspace a)
  | EmptyString => false
  end.

Fixpoint ends_nonspace (s : string) : bool :=
  match s with
  | EmptyString => false
  | String a EmptyString => negb (isspace a)
  | String _ r => ends_nonspace r
  end.

(** A text that can stand between line feeds without making a blank line:
    it is not empty, has no two line feeds in a row, and neither starts nor
    ends with a line feed. *)
Definition tight (t : string) : Prop :=
  t <> "" /\ has_blank t = false /\
  starts_with_nl t = false /\ ends_with_nl t = false.

(** [str(n)] for a natural number. *)
Definition str_of_nat (n : nat) : string :=
  NilZero.string_of_uint (Nat.to_uint n).

End Py.

(** ** Exceptions, events and the state of a run *)

(** The exceptions the script raises or meets.  All of them are subclasses
    of Python's [Exception], so the handler of [main] catches each one. *)
Inductive exn : Type :=
| Exception (msg : string)
| RuntimeError (msg : string)
| RequestException (msg : string)
    (* requests.RequestException with its subclasses: ConnectionError,
       Timeout, HTTPError, ... *)
| EmptyIndexError (msg : string)      (* whoosh.index.EmptyIndexError *)
| EOFError                            (* input() at the end of the input *)
| OtherError (msg : string).          (* any other subclass of Exception *)

(** [str(e)], what an f-string interpolates. *)
Definition str (e : exn) : string :=
  match e with
  | Exception m | RuntimeError m | RequestException m
  | EmptyIndexError m | OtherError m => m
  | EOFError => "EOF when reading a line"
  end.

(** [isinstance(e, requests.RequestException)] *)
Definition is_request_exception (e : exn) : bool :=
  match e with RequestException _ => true | _ => false end.

Inductive result (A : Type) : Type :=
| Ok (a : A)
| Raise (e : exn).
Arguments Ok {A} a.
Arguments Raise {A} e.

(** What a run does to the outside, in order. *)
Inductive event : Type :=
| Print (text : string)               (* print(...), without the final newline *)
| Input (prompt : string)             (* input(prompt) *)
| Get (url : string)                  (* requests.get(url, timeout=10) *)
| Infer (question context : string).  (* qa_pipeline(question=, context=) *)

(** The directory "index" of the working directory: absent; present without
    a whoosh index in it; or holding an index, whose documents are the
    stored values of the field "content", in the order they were added. *)
Inductive dir_state : Type :=
| NoDir
| Foreign
| Index (docs : list string).

Record world : Type := mkWorld {
  index_dir : dir_state;
  trace : list event
}.

(** Computations of the script: they change the world and return or raise. *)
Definition M (A : Type) : Type := world -> world * result A.

Definition ret {A} (a : A) : M A := fun w => (w, Ok a).

Definition raise {A} (e : exn) : M A := fun w => (w, Raise e).

Definition bind {A B} (m : M A) (k : A -> M B) : M B :=
  fun w =>
    match m w with
    | (w', Ok a) => k a w'
    | (w', Raise e) => (w', Raise e)
    end.

(** [try: body / except <handles> as e: handler(e)]; an exception the clause
    does not name passes through. *)
Definition try_except {A} (body : M A) (handles : exn -> bool)
    (handler : exn -> M A) : M A :=
  fun w =>
    match body w with
    | (w', Ok a) => (w', Ok a)
    | (w', Raise e) => if handles e then handler e w' else (w', Raise e)
    end.

(** [except Exception] *)
Definition any_exception (e : exn) : bool := true.

Definition lift {A} (r : result A) : M A := fun w => (w, r).

Definition emit (e : event) : M unit :=
  fun w => (mkWorld (index_dir w) (trace w ++ [e])%list, Ok tt).

Definition print (text : string) : M unit := emit (Print text).

Definition get_dir : M dir_state := fun w => (w, Ok (index_dir w)).

Definition set_dir (d : dir_state) : M unit :=
  fun w => (mkWorld d (trace w), Ok tt).

Notation "x <- m ;; k" := (bind m (fun x => k))
  (at level 61, m at next level, right associativity).
Notation "m ;; k" := (bind m (fun _ => k))
  (at level 61, right associativity).

(** ** What the libraries provide *)

(** [requests.Response], the attributes the script and [raise_for_status]
    read. *)
Record response : Type := mkResponse {
  status_code : nat;
  reason : string;
  resp_url : string;
  content : string
}.

(** A parsed page: the tree BeautifulSoup builds. *)
#[warnings="-register-all"]
Inductive node : Type :=
| NavigableString (text : string)
| Comment (text : string)
| Tag (name : string) (contents : list node).

(** The loaded pipeline: called with a question and a context it returns the
    value under the key 'answer' or raises. *)
Definition qa_pipeline : Type := string -> string -> result string.

(** The parts of the libraries that this development does not look into. *)
Class Libraries : Type := {
  (** requests.get(url, timeout=10): the response, or the exception of a
      failed connection or a timeout. *)
  requests_get : string -> result response;
  (** BeautifulSoup(content, 'html.parser'): the top-level nodes. *)
  html_parser : string -> list node;
  (** Whether QueryParser("content", schema).parse(query) matches a
      document whose field "content" holds the given text. *)
  matches : string -> string -> bool;
  (** The score the searcher gives, for a query, to the document with the
      given number among the given documents. *)
  score : string -> list string -> nat -> nat;
  (** pipeline(task, model=name) *)
  pipeline : string -> string -> result qa_pipeline
}.

(** The message response.raise_for_status() builds: empty unless the status
    is from 400 to 599. *)
Definition http_error_msg (r : response) : string :=
  let st := status_code r in
  if ((400 <=? st) && (st <? 500))%nat then
    Py.str_of_nat st ++ " Client Error: " ++ reason r
    ++ " for url: " ++ resp_url r
  else if ((500 <=? st) && (st <? 600))%nat then
    Py.str_of_nat st ++ " Server Error: " ++ reason r
    ++ " for url: " ++ resp_url r
  else "".

(** response.raise_for_status(): HTTPError when there is a message. *)
Definition raise_for_status (r : response) : result unit :=
  if Py.truthy (http_error_msg r)
  then Raise (RequestException (http_error_msg r))
  else Ok tt.

(** tag.get_text(): the strings below the node, concatenated; comments are
    left out. *)
Fixpoint get_text (n : node) : string :=
  match n with
  | NavigableString s => s
  | Comment _ => ""
  | Tag _ contents => Py.join "" (map get_text contents)
  end.

(** The tags named in [names] at or below a node, a tag before the tags it
    contains. *)
Fixpoint find_in (names : list string) (n : node) : list node :=
  match n with
  | Tag name contents =>
      ((if existsb (String.eqb name) names then [n] else [])
       ++ flat_map (find_in names) contents)%list
  | _ => []
  end.

(** soup.find_all(names) *)
Definition find_all (names : list string) (soup : list node) : list node :=
  flat_map (find_in names) soup.

(** os.path.exists("index") *)
Definition os_path_exists (d : dir_state) : bool :=
  match d with NoDir => false | _ => true end.

(** open_dir("index"): the directory must hold an index. *)
Definition open_dir : M (list string) :=
  d <- get_dir ;;
  match d with
  | Index docs => ret docs
  | _ => raise (EmptyIndexError
                  "Index 'MAIN' does not exist in FileStorage('index')")
  end.

(** os.mkdir("index") followed by create_in("index", schema): called when the
    directory is absent. *)
Definition mkdir_create_in : M (list string) :=
  set_dir (Index []) ;; ret [].

(** writer.commit() for a writer of the opened index [ix]: the buffered
    documents join the index, all at once. *)
Definition commit (ix writer : list string) : M unit :=
  set_dir (Index (ix ++ writer)).

(** A search result. *)
Record hit : Type := mkHit {
  docnum : nat;
  hit_score : nat;
  stored : string
}.

Fixpoint insert_hit (h : hit) (hs : list hit) : list hit :=
  match hs with
  | [] => [h]
  | x :: rest =>
      if (hit_score h <? hit_score x)%nat then x :: insert_hit h rest
      else h :: x :: rest
  end.

(** The documents with their numbers, from [n] on. *)
Fixpoint enumerate {A} (n : nat) (l : list A) : list (nat * A) :=
  match l with
  | [] => []
  | a :: rest => (n, a) :: enumerate (S n) rest
  end.

(** The documents [index_content] finds when it starts: none when it has to
    create the index; a directory without an index cannot be opened. *)
Definition existing_docs (d : dir_state) : option (list string) :=
  match d with
  | NoDir => Some []
  | Index docs => Some docs
  | Foreign => None
  end.

(** The world after some more events. *)
Definition after (w : world) (events : list event) : world :=
  mkWorld (index_dir w) (trace w ++ events).

Definition is_input (e : event) : bool :=
  match e with Input _ => true | _ => false end.

Definition is_infer (e : event) : bool :=
  match e with Infer _ _ => true | _ => false end.

(** The farewell the loop prints at the exit command (without its
    pictograph). *)
Definition goodbye : string := " Exiting. Goodbye!".

(** The exit command is among the lines: some line, stripped and
    lower-cased, is "exit", and [pre] holds the lines before the first such
    line. *)
Definition exits_after (pre stdin : list string) : Prop :=
  exists line post,
    stdin = (pre ++ line :: post)%list /\
    Py.lower (Py.strip line) = "exit" /\
    Forall (fun l => Py.lower (Py.strip l) <> "exit") pre.

(** The last event of a trace. *)
Definition last_event (t : list event) : option event :=
  match rev t with
  | e :: _ => Some e
  | [] => None
  end.

(** ** The script

    The pictographs that start some of the printed messages are left out of
    the strings below. *)
Section Agent.

Context `{Libraries}.

(** The documents the query matches, each with its number and score. *)
Definition hits (query : string) (ix : list string) : list hit :=
  map (fun nd => mkHit (fst nd) (score query ix (fst nd)) (snd nd))
    (filter (fun nd => matches query (snd nd)) (enumerate 0 ix)).

(** searcher.search(parsed_query): the matching documents, best score
    first and, among equal scores, lowest number first; ten at most. *)
Definition search (query : string) (ix : list string) : list hit :=
  firstn 10 (fold_right insert_hit [] (hits query ix)).

(** The tags whose text is scraped. *)
Definition scraped_tags : list string := ["p"; "h1"; "h2"; "h3"].

(** Step 1: Scrape website content *)
Definition scrape_documentation (url : string) : M string :=
  print ("[STEP] Fetching documentation from: " ++ url) ;;
  response <-
    try_except
      (emit (Get url) ;;
       response <- lift (requests_get url) ;;
       lift (raise_for_status response) ;;
       ret response)
      is_request_exception
      (fun e => raise (Exception ("[ERROR] Failed to fetch URL: " ++ str e))) ;;
  let soup := html_parser (content response) in
  let content := Py.join Py.nl (map get_text (find_all scraped_tags soup)) in
  print "[INFO] Content successfully scraped." ;;
  print (" Scraped Preview:" ++ Py.nl ++ " " ++ Py.take 300 content
         ++ " ..." ++ Py.nl) ;;
  ret (Py.strip content).

(** The text that [scrape_documentation] builds from the body of a page,
    before it is stripped. *)
Definition page_text (body : string) : string :=
  Py.join Py.nl (map get_text (find_all scraped_tags (html_parser body))).

(** The chunks that [index_content] writes for a text. *)
Definition chunks_of (content : string) : list string :=
  map Py.strip (Py.split_blank content).

(** Step 2: Index scraped content *)
Definition index_content (content : string) : M unit :=
  print "[STEP] Indexing content..." ;;
  d <- get_dir ;;
  ix <- (if negb (os_path_exists d) then mkdir_create_in else open_dir) ;;
  let writer := [] in
  let content_chunks := Py.split_blank content in
  let writer :=
    fold_left (fun writer chunk => (writer ++ [Py.strip chunk])%list)
      content_chunks writer in
  commit ix writer ;;
  print "[INFO] Content indexed.".

(** Step 3: Search indexed content; [None] is the not-found signal. *)
Definition search_content (query : string) : M (option string) :=
  print ("[STEP] Searching for: " ++ query) ;;
  ix <- open_dir ;;
  let results := search query ix in
  match results with
  | first :: _ =>
      print "[INFO] Relevant context found." ;;
      ret (Some (stored first))
  | [] =>
      print "[WARN] No relevant content found." ;;
      ret None
  end.

(** Step 4: Load QA Model *)
Definition load_qa_model : M qa_pipeline :=
  print "[STEP] Loading QA model..." ;;
  try_except
    (let model_name := "deepset/minilm-uncased-squad2" in
     qa_pipeline <- lift (pipeline "question-answering" model_name) ;;
     print ("[INFO] QA model loaded: " ++ model_name) ;;
     ret qa_pipeline)
    any_exception
    (fun e => raise (RuntimeError ("[ERROR] Failed to load model: " ++ str e))).

(** Step 5: Answer the query *)
Definition answer_query (query context : string) (qa_pipeline : qa_pipeline)
  : M string :=
  try_except
    (print "[STEP] Running QA model..." ;;
     emit (Infer query context) ;;
     answer <- lift (qa_pipeline query context) ;;
     ret answer)
    any_exception
    (fun e => raise (Exception ("[ERROR] Failed to answer query: " ++ str e))).

(** Step 6: If no match *)
Definition handle_missing_info : string :=
  "[INFO] Sorry, no relevant information was found in the documentation.".

(** [if context:] for a context that is [None] or a string. *)
Definition truthy_context (context : option string) : bool :=
  match context with
  | Some c => Py.truthy c
  | None => false
  end.

Definition query_prompt : string :=
  Py.nl ++ " Ask a question (or type 'exit' to quit): ".

(** One turn of the [while True] loop on the line typed at the prompt;
    [true] stands for [break]. *)
Definition loop_body (qa_pipeline : qa_pipeline) (line : string) : M bool :=
  emit (Input query_prompt) ;;
  let query := Py.strip line in
  if Py.lower query =? "exit" then
    print " Exiting. Goodbye!" ;;
    ret true
  else
    context <- search_content query ;;
    (if truthy_context context then
       answer <- answer_query query (match context with
                                     | Some c => c
                                     | None => ""
                                     end) qa_pipeline ;;
       print (" Answer: " ++ answer)
     else
       print handle_missing_info) ;;
    ret false.

(** The [while True] loop over the lines still to be typed; [input] raises
    EOFError when there is none left. *)
Fixpoint interactive (qa_pipeline : qa_pipeline) (stdin : list string)
  : M unit :=
  match stdin with
  | [] => emit (Input query_prompt) ;; raise EOFError
  | line :: rest =>
      stop <- loop_body qa_pipeline line ;;
      if stop : bool then ret tt else interactive qa_pipeline rest
  end.

(** The body of the [try] of [main]. *)
Definition session (url : string) (stdin : list string) : M unit :=
  content <- scrape_documentation url ;;
  index_content content ;;
  qa_pipeline <- load_qa_model ;;
  interactive qa_pipeline stdin.

(** Main interaction loop, run on the lines typed at the terminal. *)
Definition main (stdin : list string) : M unit :=
  print " Welcome to the Documentation Query Agent!" ;;
  emit (Input " Enter the help documentation URL: ") ;;
  match stdin with
  | [] => raise EOFError
  | line :: rest =>
      let url := Py.strip line in
      try_except (session url rest) any_exception
        (fun e => print ("[FATAL ERROR] " ++ str e))
  end.

End Agent.

(** ** A small instance of the libraries

    A stand-in for the network, the parser, the matcher and the model, on
    which the script can be run: a handful of pages, a parser for markup
    without attributes, a matcher of lower-cased words (with [*:*] matching
    every document) and a model that answers with its context. *)
Module Demo.

Inductive token : Type :=
| TOpen (name : string)
| TClose (name : string)
| TText (text : string).

Definition snoc (s : string) (c : ascii) : string := s ++ String c "".

Definition text_token (acc : string) : list token :=
  if Py.is_empty acc then [] else [TText acc].

Definition tag_token (acc : string) : token :=
  match acc with
  | String "/"%char name => TClose (Py.lower name)
  | _ => TOpen (Py.lower acc)
  end.

(** [in_tag] tells whether the scan is between [<] and [>]. *)
Fixpoint tokenize (s : string) (in_tag : bool) (acc : string) : list token :=
  match s with
  | EmptyString =>
      if in_tag then [TText (String "<"%char acc)] else text_token acc
  | String c r =>
      if in_tag then
        if Ascii.eqb c ">"%char then tag_token acc :: tokenize r false ""
        else tokenize r true (snoc acc c)
      else
        if Ascii.eqb c "<"%char then (text_token acc ++ tokenize r true "")%list
        else tokenize r false (snoc acc c)
  end.

(** An open tag with the children read so far, last first. *)
Definition frame : Type := (string * list node)%type.

Definition add_child (n : node) (stack : list frame) : list frame :=
  match stack with
  | (name, kids) :: rest => (name, n :: kids) :: rest
  | [] => [("[document]", [n])]
  end.

Definition close_top (stack : list frame) : list frame :=
  match stack with
  | (name, kids) :: parent :: rest =>
      add_child (Tag name (rev kids)) (parent :: rest)
  | _ => stack
  end.

(** Closes the tags still open at the end of the page. *)
Fixpoint unwind (stack : list frame) (pending : list node) : list node :=
  match stack with
  | [] => pending
  | (name, kids) :: rest =>
      match rest with
      | [] => (rev kids ++ pending)%list
      | _ => unwind rest [Tag name (rev kids ++ pending)%list]
      end
  end.

Fixpoint build (toks : list token) (stack : list frame) : list node :=
  match toks with
  | [] => unwind stack []
  | TText s :: rest => build rest (add_child (NavigableString s) stack)
  | TOpen name :: rest => build rest ((name, []) :: stack)
  | TClose _ :: rest => build rest (close_top stack)
  end.

Definition parse (body : string) : list node :=
  build (tokenize body false "") [("[document]", [])].

Definition is_word (c : ascii) : bool :=
  let n := nat_of_ascii c in
  (((48 <=? n) && (n <=? 57)) || ((65 <=? n) && (n <=? 90))
   || ((97 <=? n) && (n <=? 122)) || (n =? 95))%nat.

Definition flush (cur : string) : list string :=
  if Py.is_empty cur then [] else [cur].

(** The lower-cased words of a text. *)
Fixpoint terms (s : string) (cur : string) : list string :=
  match s with
  | EmptyString => flush cur
  | String c r =>
      if is_word c then terms r (snoc cur (Py.lower_char c))
      else (flush cur ++ terms r "")%list
  end.

Definition has_term (doc : string) (t : string) : bool :=
  existsb (String.eqb t) (terms doc "").

Definition word_match (query doc : string) : bool :=
  if query =? "*:*" then true
  else
    match terms query "" with
    | [] => false
    | ts => forallb (has_term doc) ts
    end.

Definition word_score (query : string) (ix : list string) (n : nat) : nat :=
  List.length (filter (has_term query) (terms (nth n ix "") "")).

Definition page (status : nat) (reason url body : string) : result response :=
  Ok (mkResponse status reason url body).

Definition get (url : string) : result response :=
  if url =? "http://docs.example/setup" then
    page 200 "OK" url "<h1>Setup</h1><p>Run init() first.</p>"
  else if url =? "http://docs.example/h4" then
    page 200 "OK" url "<h4>Changelog</h4>"
  else if url =? "http://docs.example/blank" then
    page 200 "OK" url "<p> </p>"
  else if url =? "http://docs.example/padded" then
    page 200 "OK" url "<p> padded </p>"
  else if url =? "http://docs.example/gaps" then
    page 200 "OK" url "<p>a</p><p></p><p>b</p>"
  else if url =? "http://docs.example/cached" then
    page 304 "Not Modified" url ""
  else if url =? "http://docs.example/versions" then
    page 300 "Multiple Choices" url "<p>choose a version</p>"
  else if url =? "http://docs.example/gone" then
    page 404 "Not Found" url "<p>no such page</p>"
  else Raise (RequestException "Connection refused").

(** The model: it fails on the question "run" and otherwise answers with
    the whole context. *)
Definition model : qa_pipeline :=
  fun question context =>
    if question =? "run" then Raise (OtherError "model error")
    else Ok context.

#[export] Instance libraries : Libraries := {
  requests_get := get;
  html_parser := parse;
  matches := word_match;
  score := word_score;
  pipeline := fun _ _ => Ok model
}.

Definition fresh : world := mkWorld NoDir [].

(** The world after the page of the scenario was indexed. *)
Definition indexed : world :=
  mkWorld (Index ["Setup" ++ Py.nl ++ "Run init() first."]) [].

(** A world whose index holds one empty document. *)
Definition hollow : world := mkWorld (Index [""]) [].

(** A world whose directory "index" holds no index. *)
Definition foreign : world := mkWorld Foreign [].

(** A world whose index holds no document. *)
Definition empty_index : world := mkWorld (Index []) [].

(** A world whose index holds, from an earlier session, a document that is
    all about "init". *)
Definition reopened : world := mkWorld (Index ["init init"]) [].

(** A world whose index holds, from an earlier session, a longer version of
    the page of the scenario and a note. *)
Definition revisited : world :=
  mkWorld (Index ["Run init() first. Then call run()."; "Unrelated note"]) [].

(** The same libraries with a model hub that cannot be reached. *)
Definition offline : Libraries := {|
  requests_get := get;
  html_parser := parse;
  matches := word_match;
  score := word_score;
  pipeline := fun _ _ => Raise (OtherError "model hub unreachable")
|}.

End Demo.

(** ** Notions used to state what a run does *)

(** The events a computation adds when run from [w] to [w']. *)
Definition emitted (w w' : world) (events : list event) : Prop :=
  trace w' = (trace w ++ events)%list.

(** A call of the model with a context it may be given: a document of the
    index, not empty, that the question matches. *)
Definition grounded `{Libraries} (docs : list string) (e : event) : Prop :=
  match e with
  | Infer question context =>
      In context docs /\ matches question context = true /\ context <> ""
  | _ => True
  end.

(** The events of the stages of a session, as [main] produces them: the
    greeting with the prompt for the URL, the fetch, the report of the
    scraped page (whose unstripped text is [page]), and the line the handler
    of [main] prints for an exception. *)
Definition greeting : list event :=
  [Print " Welcome to the Documentation Query Agent!";
   Input " Enter the help documentation URL: "].

Definition fetching (url : string) : list event :=
  [Print ("[STEP] Fetching documentation from: " ++ url); Get url].

Definition scraped (page : string) : list event :=
  [Print "[INFO] Content successfully scraped.";
   Print (" Scraped Preview:" ++ Py.nl ++ " " ++ Py.take 300 page
          ++ " ..." ++ Py.nl)].

Definition fatal (e : exn) : event := Print ("[FATAL ERROR] " ++ str e).

(** The computation leaves the directory "index" as it finds it. *)
Definition keeps_index {A} (m : M A) : Prop :=
  forall w, index_dir (fst (m w)) = index_dir w.

(** The first hit scores at least as much as the second. *)
Definition outranks (a b : hit) : Prop := hit_score b <= hit_score a.

(** The document with number [n] is a best match of the query. *)
Definition best_match `{Libraries} (query : string) (docs : list string)
    (n : nat) : Prop :=
  forall k d, nth_error docs k = Some d -> matches query d = true ->
              score query docs k <= score query docs n.

(** * Properties *)

(** Names the world that the run described by [E] ends in. *)
Ltac name_world E w :=
  match type of E with
  | _ = (?x, _) => set (w := x) in *
  end.

(** ** Strings *)

Example strip_ex : Py.strip ("  Exit " ++ Py.nl) = "Exit".
Proof. reflexivity. Qed.

Example lower_ex : Py.lower "EXIT" = "exit".
Proof. reflexivity. Qed.

Example split_ex :
  Py.split_blank ("a" ++ Py.nl ++ Py.nl ++ Py.nl ++ "b") = ["a"; Py.nl ++ "b"]
  /\ Py.split_blank "" = [""]
  /\ Py.split_blank (Py.nl ++ Py.nl) = [""; ""].
Proof. repeat split; reflexivity. Qed.

Example http_error_msg_ex :
  http_error_msg (mkResponse 503 "Service Unavailable" "http://a/b" "")
  = "503 Server Error: Service Unavailable for url: http://a/b"
  /\ http_error_msg (mkResponse 204 "No Content" "http://a/b" "") = "".
Proof. split; reflexivity. Qed.

Example find_all_ex :
  map get_text
    (find_all ["p"; "h1"]
       [Tag "div" [Tag "h1" [NavigableString "T"; Comment "c"];
                   Tag "p" [NavigableString "a "; Tag "b" [NavigableString "b"]];
                   Tag "h4" [NavigableString "skipped"]]])
  = ["T"; "a b"].
Proof. reflexivity. Qed.

Section PyFacts.

Import Py.

Lemma app_assoc_s (a b c : string) : (a ++ b) ++ c = a ++ b ++ c.
Proof. induction a as [|x a IH]; simpl; [reflexivity | now rewrite IH]. Qed.

Lemma app_nil_r_s (a : string) : a ++ "" = a.
Proof. induction a as [|x a IH]; simpl; [reflexivity | now rewrite IH]. Qed.

Lemma contains_refl (s : string) : contains s s.
Proof. exists "", "". simpl. now rewrite app_nil_r_s. Qed.

Lemma contains_trans (s t u : string) :
  contains s t -> contains t u -> contains s u.
Proof.
  intros (p1 & q1 & ->) (p2 & q2 & ->).
  exists (p1 ++ p2), (q2 ++ q1). now rewrite !app_assoc_s.
Qed.

Lemma contains_cons (c : ascii) (s t : string) :
  contains s t -> contains (String c s) t.
Proof. intros (p & q & ->). now exists (String c p), q. Qed.

Lemma contains_app_l (a s t : string) : contains s t -> contains (a ++ s) t.
Proof.
  intros (p & q & ->). exists (a ++ p), q. now rewrite app_assoc_s.
Qed.

Lemma contains_app_r (a s t : string) : contains s t -> contains (s ++ a) t.
Proof.
  intros (p & q & ->). exists p, (q ++ a). now rewrite !app_assoc_s.
Qed.

Lemma contains_nonempty (s t : string) :
  contains s t -> t <> "" -> s <> "".
Proof.
  intros (p & q & ->) Ht E. destruct p; simpl in E; [|discriminate].
  destruct t; [now apply Ht | discriminate].
Qed.

(** [lstrip] keeps a suffix and [rstrip] a prefix. *)
Lemma lstrip_suffix (s : string) : exists ws, s = ws ++ lstrip s.
Proof.
  induction s as [|c r [ws IH]]; simpl.
  - now exists "".
  - destruct (isspace c).
    + exists (String c ws). simpl. now rewrite <- IH.
    + now exists "".
Qed.

Lemma rstrip_prefix (s : string) : exists ws, s = rstrip s ++ ws.
Proof.
  induction s as [|c r [ws IH]]; simpl.
  - now exists "".
  - destruct (isspace c && is_empty (rstrip r)).
    + now exists (String c r).
    + exists ws. simpl. now rewrite <- IH.
Qed.

Lemma contains_strip (s : string) : contains s (strip s).
Proof.
  unfold strip. destruct (rstrip_prefix s) as [w2 E2].
  destruct (lstrip_suffix (rstrip s)) as [w1 E1].
  exists w1, w2. rewrite <- app_assoc_s, <- E1. exact E2.
Qed.

Lemma lstrip_starts (s : string) :
  lstrip s <> "" -> starts_nonspace (lstrip s) = true.
Proof.
  induction s as [|c r IH]; simpl; [congruence|].
  destruct (isspace c) eqn:E; [exact IH|]. intros _. simpl. now rewrite E.
Qed.

Lemma rstrip_ends (s : string) :
  rstrip s <> "" -> ends_nonspace (rstrip s) = true.
Proof.
  induction s as [|c r IH]; simpl; [congruence|].
  destruct (rstrip r) as [|d r'] eqn:Er; simpl.
  - destruct (isspace c) eqn:E; simpl; [congruence|]. now rewrite E.
  - rewrite andb_false_r. intros _. apply IH. discriminate.
Qed.

Lemma lstrip_ends (s : string) :
  ends_nonspace s = true -> ends_nonspace (lstrip s) = true.
Proof.
  induction s as [|c r IH]; [simpl; congruence|].
  intros Hs. cbn [lstrip]. destruct (isspace c) eqn:E; [|exact Hs].
  destruct r; [simpl in Hs; rewrite E in Hs; discriminate | apply IH, Hs].
Qed.

Lemma strip_ends (s : string) :
  strip s <> "" ->
  starts_nonspace (strip s) = true /\ ends_nonspace (strip s) = true.
Proof.
  unfold strip. intros Hne. split.
  - now apply lstrip_starts.
  - apply lstrip_ends, rstrip_ends. intros E. rewrite E in Hne. now apply Hne.
Qed.

(** Stripping a string keeps every part of it that starts and ends with a
    character other than whitespace. *)
Lemma lstrip_keeps (core s : string) :
  starts_nonspace core = true -> contains s core -> contains (lstrip s) core.
Proof.
  intros Hc. induction s as [|c r IH]; intros Hs; [exact Hs|].
  cbn [lstrip]. destruct (isspace c) eqn:E; [|exact Hs].
  apply IH. destruct Hs as ([|x p] & q & Hs); simpl in Hs.
  - destruct core as [|y core]; [discriminate|]. simpl in Hs, Hc.
    injection Hs as -> _. rewrite E in Hc. discriminate.
  - injection Hs as _ ->. now exists p, q.
Qed.

Lemma rstrip_app_core (core post : string) :
  ends_nonspace core = true -> exists post', rstrip (core ++ post) = core ++ post'.
Proof.
  induction core as [|c core IH]; [discriminate|].
  intros Hc. destruct core as [|d core].
  - simpl in Hc. simpl. exists (rstrip post).
    destruct (isspace c); [discriminate | reflexivity].
  - destruct (IH Hc) as [post' E]. exists post'.
    change (String c (String d core) ++ post)
      with (String c (String d core ++ post)).
    cbn [rstrip]. rewrite E. simpl. now rewrite andb_false_r.
Qed.

Lemma rstrip_keeps (core s : string) :
  ends_nonspace core = true -> contains s core -> contains (rstrip s) core.
Proof.
  intros Hc (p & q & ->). induction p as [|c p IH].
  - destruct (rstrip_app_core core q Hc) as [q' E]. simpl. rewrite E.
    now exists "", q'.
  - change (String c p ++ core ++ q) with (String c (p ++ core ++ q)).
    cbn [rstrip]. assert (Hne : rstrip (p ++ core ++ q) <> "").
    { apply (contains_nonempty _ core IH). now destruct core. }
    destruct (rstrip (p ++ core ++ q)); [now elim Hne|].
    simpl. rewrite andb_false_r. now apply contains_cons.
Qed.

Lemma strip_keeps (core s : string) :
  starts_nonspace core = true -> ends_nonspace core = true ->
  contains s core -> contains (strip s) core.
Proof.
  intros H1 H2 Hs. now apply lstrip_keeps, rstrip_keeps.
Qed.

Lemma has_blank_cons (c : ascii) (s : string) :
  has_blank (String c s)
  = (Ascii.eqb c LF && starts_with_nl s) || has_blank s.
Proof. destruct s; simpl; [now rewrite andb_false_r | reflexivity]. Qed.

(** [has_blank] decides the presence of two line feeds in a row. *)
Lemma has_blank_spec (s : string) :
  has_blank s = true <-> contains s (nl ++ nl).
Proof.
  split.
  - induction s as [|a s' IH]; [discriminate|].
    destruct s' as [|b r]; [discriminate|]. cbn [has_blank].
    destruct (Ascii.eqb a LF && Ascii.eqb b LF) eqn:E; simpl.
    + intros _. apply andb_true_iff in E as [Ea Eb].
      apply Ascii.eqb_eq in Ea, Eb. subst. now exists "", r.
    + intros Hs. now apply contains_cons, IH.
  - intros (p & q & ->). induction p as [|c p IH]; [reflexivity|].
    change (String c p ++ (nl ++ nl) ++ q)
      with (String c (p ++ (nl ++ nl) ++ q)).
    rewrite has_blank_cons, IH. apply orb_true_r.
Qed.

Lemma has_blank_sub (s t : string) :
  contains s t -> has_blank s = false -> has_blank t = false.
Proof.
  intros Hst Hs. destruct (has_blank t) eqn:Ht; [|reflexivity].
  apply has_blank_spec in Ht. rewrite <- Hs. symmetry.
  apply has_blank_spec. exact (contains_trans _ _ _ Hst Ht).
Qed.

Lemma split_blank_cons (a b : ascii) (r : string) :
  split_blank (String a (String b r))
  = if Ascii.eqb a LF && Ascii.eqb b LF
    then EmptyString :: split_blank r
    else push_front a (split_blank (String b r)).
Proof. reflexivity. Qed.

(** Without two line feeds in a row there is nothing to split. *)
Lemma split_no_blank (s : string) :
  has_blank s = false -> split_blank s = [s].
Proof.
  induction s as [|a s' IH]; [reflexivity|].
  destruct s' as [|b r]; [reflexivity|].
  rewrite has_blank_cons, split_blank_cons. cbn [starts_with_nl].
  intros Hs. apply orb_false_iff in Hs as [E Hs]. rewrite E, (IH Hs).
  reflexivity.
Qed.

Lemma has_blank_app_nl (a b : string) :
  has_blank a = false -> ends_with_nl a = false ->
  has_blank b = false -> starts_with_nl b = false ->
  has_blank (a ++ nl ++ b) = false.
Proof.
  intros Ha Hea Hb Hsb. induction a as [|x a IH].
  - change ("" ++ nl ++ b) with (String LF b).
    rewrite has_blank_cons, Hsb, Hb. now rewrite andb_false_r.
  - destruct a as [|y a].
    + simpl in Hea. specialize (IH eq_refl eq_refl).
      change (String x "" ++ nl ++ b) with (String x (String LF b)).
      rewrite has_blank_cons. cbn [starts_with_nl]. rewrite Hea. exact IH.
    + change (String x (String y a) ++ nl ++ b)
        with (String x (String y (a ++ nl ++ b))).
      rewrite has_blank_cons in Ha |- *. cbn [starts_with_nl] in Ha |- *.
      apply orb_false_iff in Ha as [E Ha]. rewrite E. exact (IH Ha Hea).
Qed.

(** A text of the list is part of the joined text. *)
Lemma contains_join (sep t : string) (parts : list string) :
  In t parts -> contains (join sep parts) t.
Proof.
  induction parts as [|p rest IH]; [contradiction|].
  intros [->|Hin].
  - destruct rest; [apply contains_refl|].
    cbn [join]. now exists "", (sep ++ join sep (s :: rest)).
  - destruct rest as [|p' rest]; [contradiction|].
    cbn [join]. rewrite <- app_assoc_s. apply contains_app_l, IH, Hin.
Qed.

End PyFacts.

(** ** The searcher *)
Section SearchFacts.

Context `{Libraries}.

Lemma In_insert_hit (x h : hit) (hs : list hit) :
  In x (insert_hit h hs) <-> x = h \/ In x hs.
Proof.
  induction hs as [|y hs IH]; simpl.
  - intuition.
  - destruct (hit_score h <? hit_score y)%nat; simpl; [rewrite IH|];
      intuition.
Qed.

Lemma In_sorted (x : hit) (hs : list hit) :
  In x (fold_right insert_hit [] hs) <-> In x hs.
Proof.
  induction hs as [|h hs IH]; simpl; [tauto|].
  rewrite In_insert_hit, IH. intuition.
Qed.

Lemma In_enumerate {A} (l : list A) (n k : nat) (a : A) :
  In (k, a) (enumerate n l) -> In a l.
Proof.
  revert n. induction l as [|b l IH]; simpl; intros n; [tauto|].
  intros [E|Hin]; [injection E; auto | eauto].
Qed.

Lemma enumerate_In {A} (l : list A) (n : nat) (a : A) :
  In a l -> exists k, In (k, a) (enumerate n l).
Proof.
  revert n. induction l as [|b l IH]; simpl; intros n; [tauto|].
  intros [->|Hin]; [now exists n; left|].
  destruct (IH (S n) Hin) as [k Hk]. exists k. now right.
Qed.

Lemma In_hits (query : string) (ix : list string) (h : hit) :
  In h (hits query ix) -> In (stored h) ix /\ matches query (stored h) = true.
Proof.
  unfold hits. rewrite in_map_iff. intros ([k d] & <- & Hin).
  apply filter_In in Hin as [Hin Hm]. simpl in *.
  split; [exact (In_enumerate _ _ _ _ Hin) | exact Hm].
Qed.

Lemma hits_In (query : string) (ix : list string) (d : string) :
  In d ix -> matches query d = true ->
  exists h, In h (hits query ix) /\ stored h = d.
Proof.
  intros Hin Hm. destruct (enumerate_In ix 0 d Hin) as [k Hk].
  exists (mkHit k (score query ix k) d). split; [|reflexivity].
  unfold hits. apply in_map_iff. exists (k, d). split; [reflexivity|].
  apply filter_In. now split.
Qed.

(** The first result is a document of the index that the query matches. *)
Lemma search_first (query : string) (ix : list string) (h : hit)
    (rest : list hit) :
  search query ix = h :: rest ->
  In (stored h) ix /\ matches query (stored h) = true.
Proof.
  unfold search. intros E.
  apply (In_hits query ix). apply In_sorted.
  destruct (fold_right insert_hit [] (hits query ix)) as [|x l];
    [discriminate|].
  simpl in E. injection E as -> _. now left.
Qed.

(** There is no result exactly when the query matches no document. *)
Lemma search_none (query : string) (ix : list string) :
  search query ix = [] <->
  (forall d, In d ix -> matches query d = false).
Proof.
  unfold search. split.
  - intros E d Hin. destruct (matches query d) eqn:Hm; [|reflexivity].
    destruct (hits_In query ix d Hin Hm) as (h & Hh & _).
    apply In_sorted in Hh.
    destruct (fold_right insert_hit [] (hits query ix));
      [contradiction | discriminate].
  - intros Hnone.
    destruct (fold_right insert_hit [] (hits query ix)) as [|x l] eqn:E;
      [reflexivity|].
    assert (Hx : In x (hits query ix)) by (apply In_sorted; rewrite E; now left).
    apply In_hits in Hx as [Hin Hm]. rewrite (Hnone _ Hin) in Hm.
    discriminate.
Qed.

(** If the query matches a document there is a first result. *)
Lemma search_some (query : string) (ix : list string) (d : string) :
  In d ix -> matches query d = true ->
  exists h rest, search query ix = h :: rest.
Proof.
  intros Hin Hm. destruct (search query ix) as [|h rest] eqn:E; [|eauto].
  rewrite (proj1 (search_none query ix) E d Hin) in Hm. discriminate.
Qed.

End SearchFacts.

(** ** The stages *)
Section StageFacts.

Context `{Libraries}.

Lemma after_after (w : world) (a b : list event) :
  after (after w a) b = after w (a ++ b).
Proof. unfold after. simpl. now rewrite <- app_assoc. Qed.

Lemma index_dir_after (w : world) (a : list event) :
  index_dir (after w a) = index_dir w.
Proof. reflexivity. Qed.

(** A page that is fetched without an error is scraped. *)
Lemma scrape_ok (url : string) (w : world) (resp : response) :
  requests_get url = Ok resp ->
  raise_for_status resp = Ok tt ->
  scrape_documentation url w
  = (after w [Print ("[STEP] Fetching documentation from: " ++ url);
              Get url;
              Print "[INFO] Content successfully scraped.";
              Print (" Scraped Preview:" ++ Py.nl ++ " "
                     ++ Py.take 300 (page_text (content resp))
                     ++ " ..." ++ Py.nl)],
     Ok (Py.strip (page_text (content resp)))).
Proof.
  intros Hget Hst.
  unfold scrape_documentation, try_except, bind, lift, print, emit, ret.
  simpl. rewrite Hget, Hst. unfold after, page_text. simpl.
  now rewrite <- !app_assoc.
Qed.

(** A fetch that fails with an exception of requests raises. *)
Lemma scrape_raises (url : string) (w : world) (e : exn) :
  (requests_get url = Raise e \/
   exists resp, requests_get url = Ok resp /\ raise_for_status resp = Raise e) ->
  is_request_exception e = true ->
  scrape_documentation url w
  = (after w [Print ("[STEP] Fetching documentation from: " ++ url); Get url],
     Raise (Exception ("[ERROR] Failed to fetch URL: " ++ str e))).
Proof.
  intros Hget He.
  unfold scrape_documentation, try_except, bind, lift, print, emit, ret, raise.
  simpl. destruct Hget as [Hget | (resp & Hget & Hst)]; rewrite Hget; simpl.
  - rewrite He. unfold after. simpl. now rewrite <- !app_assoc.
  - rewrite Hst, He. unfold after. simpl. now rewrite <- !app_assoc.
Qed.

Lemma writer_chunks (chunks writer : list string) :
  fold_left (fun writer chunk => (writer ++ [Py.strip chunk])%list) chunks writer
  = (writer ++ map Py.strip chunks)%list.
Proof.
  revert writer. induction chunks as [|c chunks IH]; intros writer; simpl.
  - now rewrite app_nil_r.
  - rewrite IH, <- app_assoc. reflexivity.
Qed.

(** Indexing appends the chunks of the text to the documents found. *)
Lemma index_content_spec (text : string) (w : world) (docs0 : list string) :
  existing_docs (index_dir w) = Some docs0 ->
  index_content text w
  = (mkWorld (Index (docs0 ++ chunks_of text))
       (trace w ++ [Print "[STEP] Indexing content...";
                    Print "[INFO] Content indexed."]),
     Ok tt).
Proof.
  intros Hdocs.
  unfold index_content, bind, print, emit, get_dir, commit, set_dir.
  simpl. rewrite writer_chunks. simpl. fold (chunks_of text).
  destruct (index_dir w) as [| |docs]; simpl in *; try discriminate;
    injection Hdocs as <-; simpl; now rewrite <- !app_assoc.
Qed.

(** Searching an index that exists. *)
Lemma search_content_spec (query : string) (w : world) (docs : list string) :
  index_dir w = Index docs ->
  search_content query w
  = match search query docs with
    | first :: _ =>
        (after w [Print ("[STEP] Searching for: " ++ query);
                  Print "[INFO] Relevant context found."],
         Ok (Some (stored first)))
    | [] =>
        (after w [Print ("[STEP] Searching for: " ++ query);
                  Print "[WARN] No relevant content found."],
         Ok None)
    end.
Proof.
  intros Hdir.
  unfold search_content, open_dir, bind, print, emit, get_dir, ret.
  simpl. rewrite Hdir. unfold after.
  destruct (search query docs); simpl; now rewrite Hdir, <- !app_assoc.
Qed.

End StageFacts.

(** ** The retriever without an index *)

(** C1, as amended: when the directory "index" does not exist, the
    retriever, called with any query, prints its search message and raises
    the EmptyIndexError of whoosh's [open_dir]; it does not return the
    not-found signal. *)
Theorem C1_search_without_index_raises `{Libraries}
    (query : string) (w : world) :
  index_dir w = NoDir ->
  search_content query w
  = (after w [Print ("[STEP] Searching for: " ++ query)],
     Raise (EmptyIndexError
              "Index 'MAIN' does not exist in FileStorage('index')")).
Proof.
  intros Hdir.
  unfold search_content, open_dir, bind, print, emit, get_dir, raise, after.
  simpl. rewrite Hdir. reflexivity.
Qed.

Lemma C1_witness :
  index_dir Demo.fresh = NoDir /\
  search_content (H := Demo.libraries) "init" Demo.fresh
  = (after Demo.fresh [Print "[STEP] Searching for: init"],
     Raise (EmptyIndexError
              "Index 'MAIN' does not exist in FileStorage('index')")).
Proof.
  split; [reflexivity|].
  apply (C1_search_without_index_raises (H := Demo.libraries) "init" Demo.fresh).
  reflexivity.
Defined.

(** C1 as stated fails: in a world without the directory the retriever does
    not return the not-found signal. *)
Lemma C1_counterexample :
  index_dir Demo.fresh = NoDir /\
  snd (search_content (H := Demo.libraries) "init" Demo.fresh) <> Ok None.
Proof. split; [reflexivity | discriminate]. Qed.

(** ** The fetch stage *)

Lemma truthy_app_cons (a b : string) (c : ascii) :
  Py.truthy (a ++ String c b) = true.
Proof. now destruct a. Qed.

(** A status from 400 to 599 makes [raise_for_status] raise. *)
Lemma raise_for_status_error (r : response) :
  400 <= status_code r < 600 ->
  raise_for_status r = Raise (RequestException (http_error_msg r)).
Proof.
  intros Hst. unfold raise_for_status.
  assert (Ht : Py.truthy (http_error_msg r) = true); [|now rewrite Ht].
  unfold http_error_msg.
  destruct ((400 <=? status_code r) && (status_code r <? 500))%nat eqn:E4;
    [apply truthy_app_cons|].
  destruct ((500 <=? status_code r) && (status_code r <? 600))%nat eqn:E5;
    [apply truthy_app_cons|].
  apply andb_false_iff in E4, E5.
  rewrite Nat.leb_gt, Nat.ltb_ge in E4, E5. lia.
Qed.

(** Any other status lets the response through. *)
Lemma raise_for_status_pass (r : response) :
  status_code r < 400 \/ 600 <= status_code r ->
  raise_for_status r = Ok tt.
Proof.
  intros Hst. unfold raise_for_status, http_error_msg.
  destruct ((400 <=? status_code r) && (status_code r <? 500))%nat eqn:E4.
  { apply andb_true_iff in E4. rewrite Nat.leb_le, Nat.ltb_lt in E4. lia. }
  destruct ((500 <=? status_code r) && (status_code r <? 600))%nat eqn:E5.
  { apply andb_true_iff in E5. rewrite Nat.leb_le, Nat.ltb_lt in E5. lia. }
  reflexivity.
Qed.

(** C5, as amended: when the GET fails with an exception of requests (a
    connection error, a timeout) or returns a status from 400 to 599, the
    fetch stage raises an Exception whose message carries the cause (the
    text of the exception, respectively the HTTP error message) and returns
    no content. *)
Theorem C5_fetch_failure_raises `{Libraries}
    (url : string) (w : world) (cause : string) :
  (requests_get url = Raise (RequestException cause) \/
   exists resp, requests_get url = Ok resp /\
                400 <= status_code resp < 600 /\
                http_error_msg resp = cause) ->
  scrape_documentation url w
  = (after w [Print ("[STEP] Fetching documentation from: " ++ url); Get url],
     Raise (Exception ("[ERROR] Failed to fetch URL: " ++ cause))).
Proof.
  intros Hfail.
  apply (scrape_raises url w (RequestException cause)); [|reflexivity].
  destruct Hfail as [Hget | (resp & Hget & Hst & <-)]; [now left|].
  right. exists resp. split; [exact Hget|]. now apply raise_for_status_error.
Qed.

Lemma C5_witness :
  scrape_documentation (H := Demo.libraries) "http://docs.example/gone"
    Demo.fresh
  = (after Demo.fresh
       [Print "[STEP] Fetching documentation from: http://docs.example/gone";
        Get "http://docs.example/gone"],
     Raise (Exception
              "[ERROR] Failed to fetch URL: 404 Client Error: Not Found for url: http://docs.example/gone")).
Proof.
  apply (C5_fetch_failure_raises (H := Demo.libraries)
           "http://docs.example/gone" Demo.fresh
           "404 Client Error: Not Found for url: http://docs.example/gone").
  right. exists (mkResponse 404 "Not Found" "http://docs.example/gone"
                   "<p>no such page</p>").
  split; [reflexivity|]. split; [simpl; lia | reflexivity].
Defined.

(** C5 as stated fails: a response whose status is 300, which is not a 2xx
    status, passes [raise_for_status], and the fetch stage returns the text
    of its body; for a response whose status is 304, which has no body, it
    returns the empty string and raises nothing. *)
Lemma C5_counterexample :
  requests_get (Libraries := Demo.libraries) "http://docs.example/versions"
  = Ok (mkResponse 300 "Multiple Choices" "http://docs.example/versions"
          "<p>choose a version</p>") /\
  snd (scrape_documentation (H := Demo.libraries) "http://docs.example/versions"
         Demo.fresh)
  = Ok "choose a version" /\
  requests_get (Libraries := Demo.libraries) "http://docs.example/cached"
  = Ok (mkResponse 304 "Not Modified" "http://docs.example/cached" "") /\
  snd (scrape_documentation (H := Demo.libraries) "http://docs.example/cached"
         Demo.fresh)
  = Ok "".
Proof. repeat split; reflexivity. Qed.

(** C3, as amended: when the GET returns a response that passes
    [raise_for_status] and the parsed body contains a p, h1, h2 or h3 tag
    whose text is not whitespace only, the fetch stage returns a string
    that is not empty and contains that tag's text, stripped of the
    whitespace around it. *)
Theorem C3_scraped_tag_text_kept `{Libraries}
    (url : string) (w : world) (resp : response) (tag : node) :
  requests_get url = Ok resp ->
  raise_for_status resp = Ok tt ->
  In tag (find_all scraped_tags (html_parser (content resp))) ->
  Py.strip (get_text tag) <> "" ->
  exists text,
    snd (scrape_documentation url w) = Ok text /\
    text <> "" /\
    Py.contains text (Py.strip (get_text tag)).
Proof.
  intros Hget Hst Htag Hne.
  exists (Py.strip (page_text (content resp))).
  rewrite (scrape_ok url w resp Hget Hst). split; [reflexivity|].
  assert (Hc : Py.contains (Py.strip (page_text (content resp)))
                 (Py.strip (get_text tag))).
  { destruct (strip_ends _ Hne) as [Hs He].
    apply strip_keeps; [exact Hs | exact He |].
    apply contains_trans with (t := get_text tag); [|apply contains_strip].
    apply contains_join, in_map, Htag. }
  split; [exact (contains_nonempty _ _ Hc Hne) | exact Hc].
Qed.

Lemma C3_witness :
  exists text,
    snd (scrape_documentation (H := Demo.libraries) "http://docs.example/padded"
           Demo.fresh) = Ok text /\
    text <> "" /\
    Py.contains text "padded".
Proof.
  apply (C3_scraped_tag_text_kept (H := Demo.libraries)
           "http://docs.example/padded" Demo.fresh
           (mkResponse 200 "OK" "http://docs.example/padded" "<p> padded </p>")
           (Tag "p" [NavigableString " padded "])).
  - reflexivity.
  - reflexivity.
  - simpl. now left.
  - discriminate.
Defined.

(** C3 as stated fails: a page whose only tag is a heading of level four is
    scraped to the empty string, and so is a page whose only paragraph
    holds a space; the text of a paragraph is returned without the spaces
    around it. *)
Lemma C3_counterexample :
  html_parser (Libraries := Demo.libraries) "<h4>Changelog</h4>"
  = [Tag "h4" [NavigableString "Changelog"]] /\
  snd (scrape_documentation (H := Demo.libraries) "http://docs.example/h4"
         Demo.fresh) = Ok "" /\
  html_parser (Libraries := Demo.libraries) "<p> </p>"
  = [Tag "p" [NavigableString " "]] /\
  snd (scrape_documentation (H := Demo.libraries) "http://docs.example/blank"
         Demo.fresh) = Ok "" /\
  html_parser (Libraries := Demo.libraries) "<p> padded </p>"
  = [Tag "p" [NavigableString " padded "]] /\
  snd (scrape_documentation (H := Demo.libraries) "http://docs.example/padded"
         Demo.fresh) = Ok "padded".
Proof. repeat split; reflexivity. Qed.

(** ** The indexer and the retriever *)

(** The page of the scenario and the text scraped from it. *)
Lemma setup_page_text `{Libraries} (body : string) :
  html_parser body
  = [Tag "h1" [NavigableString "Setup"];
     Tag "p" [NavigableString "Run init() first."]] ->
  Py.strip (page_text body) = "Setup" ++ Py.nl ++ "Run init() first.".
Proof. intros Hp. unfold page_text. rewrite Hp. reflexivity. Qed.

Lemma length_app_s (a b : string) :
  String.length (a ++ b) = String.length a + String.length b.
Proof. induction a as [|x a IH]; simpl; [reflexivity | now rewrite IH]. Qed.

(** A part is not longer than the whole. *)
Lemma contains_length (s sub : string) :
  Py.contains s sub -> String.length sub <= String.length s.
Proof. intros (pre & post & ->). rewrite !length_app_s. lia. Qed.

(** C4, as amended: for a page with the body
    [<h1>Setup</h1><p>Run init() first.</p>] (parsed as a heading and a
    paragraph) the fetch stage returns exactly "Setup", a line feed,
    "Run init() first.", and indexing stores that text as one document after
    the older ones.  When the index is new, or every older document that
    "init" matches contains "Run init() first.", the query "init", which
    matches the scraped text, returns the stored content of a document of the
    index that it matches and that contains "Run init() first."; it is the
    scraped text itself when "init" matches no older document. *)
Theorem C4_setup_scenario `{Libraries}
    (url : string) (w : world) (resp : response) (docs0 : list string) :
  requests_get url = Ok resp ->
  raise_for_status resp = Ok tt ->
  content resp = "<h1>Setup</h1><p>Run init() first.</p>" ->
  html_parser "<h1>Setup</h1><p>Run init() first.</p>"
  = [Tag "h1" [NavigableString "Setup"];
     Tag "p" [NavigableString "Run init() first."]] ->
  matches "init" ("Setup" ++ Py.nl ++ "Run init() first.") = true ->
  existing_docs (index_dir w) = Some docs0 ->
  (forall d, In d docs0 -> matches "init" d = true ->
             Py.contains d "Run init() first.") ->
  exists w1 w2 w3 chunk,
    scrape_documentation url w
    = (w1, Ok ("Setup" ++ Py.nl ++ "Run init() first.")) /\
    index_content ("Setup" ++ Py.nl ++ "Run init() first.") w1 = (w2, Ok tt) /\
    index_dir w2 = Index (docs0 ++ ["Setup" ++ Py.nl ++ "Run init() first."]) /\
    search_content "init" w2 = (w3, Ok (Some chunk)) /\
    In chunk (docs0 ++ ["Setup" ++ Py.nl ++ "Run init() first."]) /\
    matches "init" chunk = true /\
    Py.contains chunk "Run init() first." /\
    ((forall d, In d docs0 -> matches "init" d = false) ->
     chunk = "Setup" ++ Py.nl ++ "Run init() first.").
Proof.
  intros Hget Hst Hbody Hparse Hm Hdocs Hold.
  set (text := "Setup" ++ Py.nl ++ "Run init() first.") in *.
  assert (Hin : In text (docs0 ++ [text])) by (apply in_or_app; right; now left).
  destruct (search_some "init" _ text Hin Hm) as (h & rest & Hsearch).
  destruct (search_first _ _ _ _ Hsearch) as [Hh Hmh].
  pose proof (scrape_ok url w resp Hget Hst) as E1.
  rewrite Hbody, (setup_page_text _ Hparse) in E1. name_world E1 w1.
  pose proof (index_content_spec text w1 docs0 Hdocs) as E2.
  change (chunks_of text) with [text] in E2. name_world E2 w2.
  pose proof (search_content_spec "init" w2 _ eq_refl) as E3.
  rewrite Hsearch in E3. name_world E3 w3.
  exists w1, w2, w3, (stored h). repeat split; try assumption.
  - apply in_app_or in Hh as [Hh | Hh]; [now apply Hold|].
    destruct Hh as [<- | []]. now exists ("Setup" ++ Py.nl), "".
  - intros Hnone. apply in_app_or in Hh as [Hh | Hh].
    + rewrite (Hnone _ Hh) in Hmh. discriminate.
    + now destruct Hh as [<- | []].
Qed.

Lemma C4_witness :
  exists w1 w2 w3 chunk,
    scrape_documentation (H := Demo.libraries) "http://docs.example/setup"
      Demo.revisited
    = (w1, Ok ("Setup" ++ Py.nl ++ "Run init() first.")) /\
    index_content ("Setup" ++ Py.nl ++ "Run init() first.") w1 = (w2, Ok tt) /\
    index_dir w2
    = Index (["Run init() first. Then call run()."; "Unrelated note"]
             ++ ["Setup" ++ Py.nl ++ "Run init() first."]) /\
    search_content (H := Demo.libraries) "init" w2 = (w3, Ok (Some chunk)) /\
    In chunk (["Run init() first. Then call run()."; "Unrelated note"]
              ++ ["Setup" ++ Py.nl ++ "Run init() first."]) /\
    Demo.word_match "init" chunk = true /\
    Py.contains chunk "Run init() first." /\
    ((forall d,
        In d ["Run init() first. Then call run()."; "Unrelated note"] ->
        Demo.word_match "init" d = false) ->
     chunk = "Setup" ++ Py.nl ++ "Run init() first.").
Proof.
  apply (C4_setup_scenario (H := Demo.libraries)
           "http://docs.example/setup" Demo.revisited
           (mkResponse 200 "OK" "http://docs.example/setup"
              "<h1>Setup</h1><p>Run init() first.</p>")
           ["Run init() first. Then call run()."; "Unrelated note"]).
  - reflexivity.
  - reflexivity.
  - reflexivity.
  - reflexivity.
  - reflexivity.
  - reflexivity.
  - intros d [<- | [<- | []]] Hd.
    + now exists "", " Then call run().".
    + discriminate Hd.
Defined.

(** C4 as stated fails on an index that is reopened: an older document that
    "init" matches and that scores higher is returned in place of the chunk
    of the page, and it does not contain "Run init() first.". *)
Lemma C4_counterexample :
  index_dir Demo.reopened = Index ["init init"] /\
  snd (scrape_documentation (H := Demo.libraries) "http://docs.example/setup"
         Demo.reopened)
  = Ok ("Setup" ++ Py.nl ++ "Run init() first.") /\
  index_dir
    (fst (index_content ("Setup" ++ Py.nl ++ "Run init() first.")
            (fst (scrape_documentation (H := Demo.libraries)
                    "http://docs.example/setup" Demo.reopened))))
  = Index ["init init"; "Setup" ++ Py.nl ++ "Run init() first."] /\
  snd (search_content (H := Demo.libraries) "init"
         (fst (index_content ("Setup" ++ Py.nl ++ "Run init() first.")
                 (fst (scrape_documentation (H := Demo.libraries)
                         "http://docs.example/setup" Demo.reopened)))))
  = Ok (Some "init init") /\
  ~ Py.contains "init init" "Run init() first.".
Proof.
  repeat split; try reflexivity.
  intros Hc. apply contains_length in Hc. simpl in Hc. lia.
Qed.

(** C6: indexing appends and does not deduplicate.  Indexing a text twice
    adds its chunks twice to the documents already there, and a query that
    matches one of the chunks, and no document with another content, then
    returns the stored content of that chunk. *)
Theorem C6_index_twice `{Libraries}
    (text query chunk : string) (w : world) (docs0 : list string) :
  existing_docs (index_dir w) = Some docs0 ->
  In chunk (chunks_of text) ->
  matches query chunk = true ->
  (forall d, In d (docs0 ++ chunks_of text ++ chunks_of text) ->
             matches query d = true -> d = chunk) ->
  exists w1 w2 w3,
    index_content text w = (w1, Ok tt) /\
    index_content text w1 = (w2, Ok tt) /\
    index_dir w2 = Index (docs0 ++ chunks_of text ++ chunks_of text) /\
    search_content query w2 = (w3, Ok (Some chunk)).
Proof.
  intros Hdocs Hin Hm Huniq.
  pose proof (index_content_spec text w docs0 Hdocs) as E1. name_world E1 w1.
  pose proof (index_content_spec text w1 (docs0 ++ chunks_of text) eq_refl)
    as E2.
  rewrite <- app_assoc in E2. name_world E2 w2.
  assert (Hin2 : In chunk (docs0 ++ chunks_of text ++ chunks_of text)).
  { apply in_or_app. right. apply in_or_app. now left. }
  destruct (search_some query _ chunk Hin2 Hm) as (h & rest & Hsearch).
  destruct (search_first _ _ _ _ Hsearch) as [Hh Hmh].
  pose proof (search_content_spec query w2 _ eq_refl) as E3.
  rewrite Hsearch, (Huniq _ Hh Hmh) in E3. name_world E3 w3.
  exists w1, w2, w3. repeat split; assumption.
Qed.

Lemma C6_witness :
  exists w1 w2 w3,
    index_content ("alpha" ++ Py.nl ++ Py.nl ++ "beta") Demo.fresh = (w1, Ok tt) /\
    index_content ("alpha" ++ Py.nl ++ Py.nl ++ "beta") w1 = (w2, Ok tt) /\
    index_dir w2 = Index ["alpha"; "beta"; "alpha"; "beta"] /\
    search_content (H := Demo.libraries) "beta" w2 = (w3, Ok (Some "beta")).
Proof.
  apply (C6_index_twice (H := Demo.libraries)
           ("alpha" ++ Py.nl ++ Py.nl ++ "beta") "beta" "beta" Demo.fresh []).
  - reflexivity.
  - simpl. right. now left.
  - reflexivity.
  - simpl. intros d [<- | [<- | [<- | [<- | []]]]]; intros Hd;
      first [reflexivity | discriminate Hd].
Defined.

(** ** One chunk per page *)

Lemma rstrip_fixed (s : string) :
  Py.ends_nonspace s = true -> Py.rstrip s = s.
Proof.
  induction s as [|c r IH]; [discriminate|]. intros Hs.
  cbn [Py.rstrip]. destruct r as [|d r].
  - simpl in Hs |- *. destruct (Py.isspace c); [discriminate | reflexivity].
  - rewrite (IH Hs). simpl. now rewrite andb_false_r.
Qed.

Lemma lstrip_fixed (s : string) :
  Py.starts_nonspace s = true -> Py.lstrip s = s.
Proof.
  destruct s as [|c r]; [discriminate|]. simpl.
  now destruct (Py.isspace c).
Qed.

(** Stripping twice is stripping once. *)
Lemma strip_idem (s : string) : Py.strip (Py.strip s) = Py.strip s.
Proof.
  destruct (string_dec (Py.strip s) "") as [E | Hne]; [now rewrite E|].
  destruct (strip_ends s Hne) as [Hs He].
  unfold Py.strip at 1. now rewrite (rstrip_fixed _ He), (lstrip_fixed _ Hs).
Qed.

Lemma starts_with_nl_app (a b : string) :
  a <> "" -> Py.starts_with_nl (a ++ b) = Py.starts_with_nl a.
Proof. destruct a; [congruence | reflexivity]. Qed.

Lemma join_tight (texts : list string) :
  (forall t, In t texts -> Py.tight t) ->
  Py.has_blank (Py.join Py.nl texts) = false /\
  Py.starts_with_nl (Py.join Py.nl texts) = false.
Proof.
  induction texts as [|t rest IH]; intros Hall; [split; reflexivity|].
  destruct (Hall t (or_introl eq_refl)) as (Hne & Hb & Hs & He).
  destruct rest as [|t' rest]; [now split|].
  destruct IH as [IHb IHs]; [intros x Hx; apply Hall; now right|].
  change (Py.join Py.nl (t :: t' :: rest))
    with (t ++ Py.nl ++ Py.join Py.nl (t' :: rest)).
  split; [now apply has_blank_app_nl | now rewrite starts_with_nl_app].
Qed.

(** C8, as amended: the scraper joins the texts of the tags with one line
    feed, so for every page whose tag texts are not empty, contain no blank
    line and neither start nor end with a line feed, the split at blank
    lines yields exactly one chunk, and the whole scraped text is stored as
    one document of the index. *)
Theorem C8_one_chunk `{Libraries}
    (url : string) (w : world) (resp : response) (docs0 : list string) :
  requests_get url = Ok resp ->
  raise_for_status resp = Ok tt ->
  existing_docs (index_dir w) = Some docs0 ->
  (forall t,
     In t (map get_text (find_all scraped_tags (html_parser (content resp)))) ->
     Py.tight t) ->
  exists w1 w2 text,
    scrape_documentation url w = (w1, Ok text) /\
    Py.split_blank text = [text] /\
    index_content text w1 = (w2, Ok tt) /\
    index_dir w2 = Index (docs0 ++ [text]).
Proof.
  intros Hget Hst Hdocs Htight.
  pose proof (scrape_ok url w resp Hget Hst) as E1. name_world E1 w1.
  set (text := Py.strip (page_text (content resp))) in *.
  assert (Hb : Py.has_blank text = false).
  { apply has_blank_sub with (s := page_text (content resp));
      [apply contains_strip | apply join_tight, Htight]. }
  assert (Hsplit : Py.split_blank text = [text]) by now apply split_no_blank.
  pose proof (index_content_spec text w1 docs0 Hdocs) as E2.
  unfold chunks_of in E2. rewrite Hsplit in E2. simpl in E2.
  unfold text in E2 at 2. rewrite strip_idem in E2. fold text in E2.
  name_world E2 w2.
  exists w1, w2, text. repeat split; assumption.
Qed.

Lemma C8_witness :
  exists w1 w2 text,
    scrape_documentation (H := Demo.libraries) "http://docs.example/setup"
      Demo.fresh = (w1, Ok text) /\
    Py.split_blank text = [text] /\
    index_content text w1 = (w2, Ok tt) /\
    index_dir w2 = Index ([] ++ [text]).
Proof.
  apply (C8_one_chunk (H := Demo.libraries) "http://docs.example/setup"
           Demo.fresh
           (mkResponse 200 "OK" "http://docs.example/setup"
              "<h1>Setup</h1><p>Run init() first.</p>") []).
  - reflexivity.
  - reflexivity.
  - reflexivity.
  - simpl. intros t [<- | [<- | []]]; repeat split; discriminate.
Defined.

(** C8 as stated fails: the texts of the three paragraphs of this page,
    "a", the empty text and "b", contain no blank line, but their join does,
    and the index receives two documents. *)
Lemma C8_counterexample :
  map get_text
    (find_all scraped_tags
       (html_parser (Libraries := Demo.libraries) "<p>a</p><p></p><p>b</p>"))
  = ["a"; ""; "b"] /\
  forallb (fun t => negb (Py.has_blank t)) ["a"; ""; "b"] = true /\
  (let (w1, text) :=
     scrape_documentation (H := Demo.libraries) "http://docs.example/gaps"
       Demo.fresh in
   match text with
   | Ok text =>
       Py.split_blank text = ["a"; "b"] /\
       index_dir (fst (index_content text w1)) = Index ["a"; "b"]
   | Raise _ => False
   end).
Proof. repeat split; reflexivity. Qed.

(** ** The interactive loop *)

(** What a turn does with a line that is not the exit command. *)
Lemma loop_body_query `{Libraries} (qa : qa_pipeline) (line : string)
    (w : world) :
  Py.lower (Py.strip line) <> "exit" ->
  loop_body qa line w
  = (context <- search_content (Py.strip line) ;;
     (if truthy_context context then
        answer <- answer_query (Py.strip line)
                    (match context with Some c => c | None => "" end) qa ;;
        print (" Answer: " ++ answer)
      else print handle_missing_info) ;;
     ret false) (after w [Input query_prompt]).
Proof.
  intros Hne. apply String.eqb_neq in Hne.
  unfold loop_body. unfold bind at 1. unfold emit. rewrite Hne. reflexivity.
Qed.

Lemma loop_body_exit `{Libraries} (qa : qa_pipeline) (line : string)
    (w : world) :
  Py.lower (Py.strip line) = "exit" ->
  loop_body qa line w = (after w [Input query_prompt; Print goodbye], Ok true).
Proof.
  intros He. apply String.eqb_eq in He.
  unfold loop_body, bind, emit, print, emit, ret, after. rewrite He. simpl.
  now rewrite <- app_assoc.
Qed.

(** A turn on a line that is not the exit command does not break. *)
Lemma loop_body_no_break `{Libraries} (qa : qa_pipeline) (line : string)
    (w : world) :
  Py.lower (Py.strip line) <> "exit" ->
  snd (loop_body qa line w) <> Ok true.
Proof.
  intros Hne. rewrite (loop_body_query qa line w Hne). unfold bind.
  destruct (search_content _ _) as [w1 [context | e]]; [|discriminate].
  destruct (truthy_context context).
  - destruct (answer_query _ _ _ _) as [w2 [answer | e]]; discriminate.
  - discriminate.
Qed.



(** C7: a query without a hit is an outcome of its own, not an error.  With
    an index in place and a line, not the exit command, whose query matches
    no document, a turn prints the message of [handle_missing_info] after
    the warning of the retriever, calls no model, raises nothing, and the
    loop goes on with the next line. *)
Theorem C7_no_hits `{Libraries}
    (qa : qa_pipeline) (line : string) (rest : list string) (w : world)
    (docs : list string) :
  index_dir w = Index docs ->
  Py.lower (Py.strip line) <> "exit" ->
  (forall d, In d docs -> matches (Py.strip line) d = false) ->
  let w' := after w [Input query_prompt;
                     Print ("[STEP] Searching for: " ++ Py.strip line);
                     Print "[WARN] No relevant content found.";
                     Print handle_missing_info] in
  loop_body qa line w = (w', Ok false) /\
  filter is_infer (trace w') = filter is_infer (trace w) /\
  interactive qa (line :: rest) w = interactive qa rest w'.
Proof.
  intros Hdir Hne Hnone w'.
  assert (Hbody : loop_body qa line w = (w', Ok false)).
  { rewrite (loop_body_query qa line w Hne). unfold bind.
    rewrite (search_content_spec (Py.strip line)
               (after w [Input query_prompt]) docs Hdir).
    rewrite (proj2 (search_none _ docs) Hnone).
    unfold truthy_context, print, emit, ret, w', after. simpl.
    now rewrite <- !app_assoc. }
  split; [exact Hbody|]. split.
  - unfold w', after. simpl. rewrite filter_app. simpl. apply app_nil_r.
  - cbn [interactive]. unfold bind at 1. now rewrite Hbody.
Qed.

Lemma C7_witness :
  let w' := after Demo.indexed
              [Input query_prompt;
               Print "[STEP] Searching for: xyzzy";
               Print "[WARN] No relevant content found.";
               Print handle_missing_info] in
  loop_body (H := Demo.libraries) Demo.model "xyzzy" Demo.indexed
  = (w', Ok false) /\
  filter is_infer (trace w') = [] /\
  interactive (H := Demo.libraries) Demo.model ["xyzzy"; "exit"] Demo.indexed
  = interactive (H := Demo.libraries) Demo.model ["exit"] w'.
Proof.
  apply (C7_no_hits (H := Demo.libraries) Demo.model "xyzzy" ["exit"]
           Demo.indexed ["Setup" ++ Py.nl ++ "Run init() first."]).
  - reflexivity.
  - discriminate.
  - intros d [<- | []]. reflexivity.
Defined.

(** C9, as amended: when the first result of the search holds the empty
    string, the empty context is false for [if context], so the turn prints
    the message of [handle_missing_info], calls no model and the loop goes
    on, as in a turn without a hit.  The two turns are not the same: for the
    same line, the turn with the empty hit prints the retriever's
    "[INFO] Relevant context found." where the turn without a hit (here on
    an index [docs'] that the query does not match) prints
    "[WARN] No relevant content found."; the other events, the result and
    the continuation of the loop agree. *)
Theorem C9_empty_hit `{Libraries}
    (qa : qa_pipeline) (line : string) (rest : list string) (w : world)
    (docs docs' : list string) (first : hit) (others : list hit) :
  index_dir w = Index docs ->
  Py.lower (Py.strip line) <> "exit" ->
  search (Py.strip line) docs = first :: others ->
  stored first = "" ->
  (forall d, In d docs' -> matches (Py.strip line) d = false) ->
  let w_none := mkWorld (Index docs') (trace w) in
  let turn (verdict : string) : list event :=
    [Input query_prompt;
     Print ("[STEP] Searching for: " ++ Py.strip line);
     Print verdict;
     Print handle_missing_info] in
  loop_body qa line w
  = (after w (turn "[INFO] Relevant context found."), Ok false) /\
  loop_body qa line w_none
  = (after w_none (turn "[WARN] No relevant content found."), Ok false) /\
  filter is_infer (turn "[INFO] Relevant context found.") = [] /\
  filter is_infer (turn "[WARN] No relevant content found.") = [] /\
  interactive qa (line :: rest) w
  = interactive qa rest (after w (turn "[INFO] Relevant context found.")) /\
  interactive qa (line :: rest) w_none
  = interactive qa rest
      (after w_none (turn "[WARN] No relevant content found.")).
Proof.
  intros Hdir Hne Hsearch Hempty Hnone w_none turn.
  assert (Hhit : loop_body qa line w
                 = (after w (turn "[INFO] Relevant context found."), Ok false)).
  { rewrite (loop_body_query qa line w Hne). unfold bind.
    rewrite (search_content_spec (Py.strip line)
               (after w [Input query_prompt]) docs Hdir).
    rewrite Hsearch, Hempty.
    unfold truthy_context, print, emit, ret, turn, after. simpl.
    now rewrite <- !app_assoc. }
  assert (Hmiss : loop_body qa line w_none
                  = (after w_none (turn "[WARN] No relevant content found."),
                     Ok false)).
  { rewrite (loop_body_query qa line w_none Hne). unfold bind.
    rewrite (search_content_spec (Py.strip line)
               (after w_none [Input query_prompt]) docs' eq_refl).
    rewrite (proj2 (search_none _ docs') Hnone).
    unfold truthy_context, print, emit, ret, turn, after. simpl.
    now rewrite <- !app_assoc. }
  repeat split; try assumption.
  - cbn [interactive]. unfold bind at 1. now rewrite Hhit.
  - cbn [interactive]. unfold bind at 1. now rewrite Hmiss.
Qed.

Lemma C9_witness :
  let turn (verdict : string) : list event :=
    [Input query_prompt;
     Print ("[STEP] Searching for: " ++ Py.strip "*:*");
     Print verdict;
     Print handle_missing_info] in
  loop_body (H := Demo.libraries) Demo.model "*:*" Demo.hollow
  = (after Demo.hollow (turn "[INFO] Relevant context found."), Ok false) /\
  loop_body (H := Demo.libraries) Demo.model "*:*" Demo.empty_index
  = (after Demo.empty_index (turn "[WARN] No relevant content found."),
     Ok false) /\
  filter is_infer (turn "[INFO] Relevant context found.") = [] /\
  filter is_infer (turn "[WARN] No relevant content found.") = [] /\
  interactive (H := Demo.libraries) Demo.model ["*:*"; "exit"] Demo.hollow
  = interactive (H := Demo.libraries) Demo.model ["exit"]
      (after Demo.hollow (turn "[INFO] Relevant context found.")) /\
  interactive (H := Demo.libraries) Demo.model ["*:*"; "exit"] Demo.empty_index
  = interactive (H := Demo.libraries) Demo.model ["exit"]
      (after Demo.empty_index (turn "[WARN] No relevant content found.")).
Proof.
  apply (C9_empty_hit (H := Demo.libraries) Demo.model "*:*" ["exit"]
           Demo.hollow [""] [] (mkHit 0 0 "") []).
  - reflexivity.
  - discriminate.
  - reflexivity.
  - reflexivity.
  - intros d [].
Defined.

(** C9 as stated fails: for the same line, the turn whose first result is
    empty does not behave exactly as the turn without a hit; it prints that
    a relevant context was found, which the turn without a hit never
    prints, and the two traces differ. *)
Lemma C9_counterexample :
  search (H := Demo.libraries) "*:*" [""] = [mkHit 0 0 ""] /\
  search (H := Demo.libraries) "*:*" [] = [] /\
  trace (fst (loop_body (H := Demo.libraries) Demo.model "*:*" Demo.hollow))
  = [Input query_prompt;
     Print "[STEP] Searching for: *:*";
     Print "[INFO] Relevant context found.";
     Print handle_missing_info] /\
  trace (fst (loop_body (H := Demo.libraries) Demo.model "*:*"
                Demo.empty_index))
  = [Input query_prompt;
     Print "[STEP] Searching for: *:*";
     Print "[WARN] No relevant content found.";
     Print handle_missing_info] /\
  trace (fst (loop_body (H := Demo.libraries) Demo.model "*:*" Demo.hollow))
  <> trace (fst (loop_body (H := Demo.libraries) Demo.model "*:*"
                   Demo.empty_index)).
Proof. repeat split; try reflexivity. discriminate. Qed.

(** ** The end of a session *)

Lemma last_event_snoc (t : list event) (e : event) :
  last_event (t ++ [e]) = Some e.
Proof. unfold last_event. now rewrite rev_app_distr. Qed.

(** An exception in a turn ends the loop: the lines that follow are not
    read. *)
Lemma turn_failure_ends_loop `{Libraries} (qa : qa_pipeline) (line : string)
    (rest : list string) (w w1 : world) (e : exn) :
  loop_body qa line w = (w1, Raise e) ->
  interactive qa (line :: rest) w = (w1, Raise e).
Proof. intros Hbody. cbn [interactive]. unfold bind. now rewrite Hbody. Qed.

(** The loop returns only through the exit command. *)
Lemma interactive_returns `{Libraries} (qa : qa_pipeline)
    (stdin : list string) (w w' : world) :
  interactive qa stdin w = (w', Ok tt) ->
  last_event (trace w') = Some (Print goodbye) /\
  exists pre, exits_after pre stdin.
Proof.
  revert w. induction stdin as [|line rest IH]; intros w Hrun.
  - discriminate Hrun.
  - destruct (string_dec (Py.lower (Py.strip line)) "exit") as [He | Hne].
    + cbn [interactive] in Hrun. unfold bind in Hrun.
      rewrite (loop_body_exit qa line w He) in Hrun.
      injection Hrun as <-. split.
      * unfold after. cbn [trace].
        change [Input query_prompt; Print goodbye]
          with ([Input query_prompt] ++ [Print goodbye])%list.
        rewrite app_assoc. apply last_event_snoc.
      * exists [], line, rest. auto.
    + pose proof (loop_body_no_break qa line w Hne) as Hnb.
      cbn [interactive] in Hrun. unfold bind in Hrun.
      destruct (loop_body qa line w) as [w1 [[|] | e]]; simpl in Hnb.
      * now elim Hnb.
      * destruct (IH w1 Hrun) as (Hlast & pre & l & post & -> & Hl & Hpre).
        split; [exact Hlast|]. exists (line :: pre), l, post. auto.
      * discriminate Hrun.
Qed.

(** A session that returns has run its loop to the exit command. *)
Lemma session_returns `{Libraries} (url : string) (stdin : list string)
    (w w' : world) :
  session url stdin w = (w', Ok tt) ->
  last_event (trace w') = Some (Print goodbye) /\
  exists pre, exits_after pre stdin.
Proof.
  unfold session, bind.
  destruct (scrape_documentation url w) as [w1 [text | e]]; [|discriminate].
  destruct (index_content text w1) as [w2 [[] | e]]; [|discriminate].
  destruct (load_qa_model w2) as [w3 [qa | e]]; [|discriminate].
  apply interactive_returns.
Qed.

(** C2, as amended: once the URL is read, [main] always returns, and the
    session has ended in one of two ways.  Either the loop met the exit
    command, after lines that were not exit commands, and the farewell is
    the last thing printed; or an exception was raised inside the [try],
    during setup or during a turn of the loop (a failure of the retriever,
    a failure while answering, the end of the input), and the handler
    printed it as a fatal error.  An exception in a turn ends the loop: the
    remaining lines are not read. *)
Theorem C2_session_end `{Libraries}
    (url_line : string) (stdin : list string) (w : world) :
  (exists w',
     main (url_line :: stdin) w = (w', Ok tt) /\
     ((last_event (trace w') = Some (Print goodbye) /\
       exists pre, exits_after pre stdin)
      \/
      (exists e,
         snd (session (Py.strip url_line) stdin
                (after w [Print " Welcome to the Documentation Query Agent!";
                          Input " Enter the help documentation URL: "]))
         = Raise e /\
         last_event (trace w') = Some (Print ("[FATAL ERROR] " ++ str e)))))
  /\
  (forall qa line w0 w1 e,
     loop_body qa line w0 = (w1, Raise e) ->
     interactive qa (line :: stdin) w0 = (w1, Raise e)).
Proof.
  split; [|intros qa line w0 w1 e; apply turn_failure_ends_loop].
  set (w0 := after w [Print " Welcome to the Documentation Query Agent!";
                      Input " Enter the help documentation URL: "]).
  assert (Hmain : main (url_line :: stdin) w
                  = try_except (session (Py.strip url_line) stdin) any_exception
                      (fun e => print ("[FATAL ERROR] " ++ str e)) w0).
  { unfold main, bind, print, emit, w0, after. simpl.
    now rewrite <- app_assoc. }
  rewrite Hmain. unfold try_except.
  destruct (session (Py.strip url_line) stdin w0) as [w1 [[] | e]] eqn:Hs.
  - exists w1. split; [reflexivity|]. left. exact (session_returns _ _ _ _ Hs).
  - simpl. eexists. split; [reflexivity|]. right. exists e.
    split; [reflexivity|]. cbn [trace]. apply last_event_snoc.
Qed.

Lemma C2_witness :
  interactive (H := Demo.libraries) Demo.model ["run"; "init"; "exit"]
    Demo.indexed
  = (after Demo.indexed
       [Input query_prompt;
        Print "[STEP] Searching for: run";
        Print "[INFO] Relevant context found.";
        Print "[STEP] Running QA model...";
        Infer "run" ("Setup" ++ Py.nl ++ "Run init() first.")],
     Raise (Exception "[ERROR] Failed to answer query: model error")).
Proof.
  apply (proj2 (C2_session_end (H := Demo.libraries)
                  "http://docs.example/setup" ["init"; "exit"] Demo.fresh)
           Demo.model "run" Demo.indexed).
  reflexivity.
Defined.

(** C2 as stated fails: the model fails on the first question, and the
    session ends there with a fatal error; of the four lines typed only the
    URL and that question are read, the exit command never is. *)
Lemma C2_counterexample :
  let w' := fst (main (H := Demo.libraries)
                   ["http://docs.example/setup"; "run"; "init"; "exit"]
                   Demo.fresh) in
  last_event (trace w')
  = Some (Print "[FATAL ERROR] [ERROR] Failed to answer query: model error") /\
  List.length (filter is_input (trace w')) = 2 /\
  filter is_infer (trace w')
  = [Infer "run" ("Setup" ++ Py.nl ++ "Run init() first.")].
Proof. repeat split; reflexivity. Qed.

(** * Further properties of the stages *)

(** ** Splitting into chunks *)

Lemma split_blank_nonempty (s : string) : Py.split_blank s <> [].
Proof.
  destruct s as [|a [|b r]]; [discriminate | discriminate |].
  rewrite split_blank_cons.
  destruct (Ascii.eqb a Py.LF && Ascii.eqb b Py.LF); [discriminate|].
  now destruct (Py.split_blank (String b r)).
Qed.

Lemma join_push_front (sep : string) (a : ascii) (pieces : list string) :
  pieces <> [] ->
  Py.join sep (Py.push_front a pieces) = String a (Py.join sep pieces).
Proof.
  destruct pieces as [|p [|q rest]]; [congruence | reflexivity | reflexivity].
Qed.

Lemma join_cons_nonempty (sep p : string) (pieces : list string) :
  pieces <> [] -> Py.join sep (p :: pieces) = p ++ sep ++ Py.join sep pieces.
Proof. destruct pieces; [congruence | reflexivity]. Qed.

(** X1: joining the pieces of the split with two line feeds gives the text
    back: the split that [index_content] applies loses nothing but the
    separators it cuts at. *)
Theorem split_blank_join (s : string) :
  Py.join (Py.nl ++ Py.nl) (Py.split_blank s) = s.
Proof.
  enough (Hboth : Py.join (Py.nl ++ Py.nl) (Py.split_blank s) = s /\
                  forall a, Py.join (Py.nl ++ Py.nl)
                              (Py.split_blank (String a s)) = String a s)
    by apply Hboth.
  induction s as [|b r [IH0 IH1]]; [split; [reflexivity | now intros a]|].
  split; [apply IH1|]. intros a. rewrite split_blank_cons.
  destruct (Ascii.eqb a Py.LF && Ascii.eqb b Py.LF) eqn:E.
  - apply andb_true_iff in E as [Ea Eb]. apply Ascii.eqb_eq in Ea, Eb. subst.
    rewrite join_cons_nonempty by apply split_blank_nonempty.
    now rewrite IH0.
  - rewrite join_push_front by apply split_blank_nonempty.
    now rewrite IH1.
Qed.

(** The first piece of a split starts as the text does. *)
Lemma split_head_starts (s p : string) (rest : list string) :
  Py.split_blank s = p :: rest ->
  Py.starts_with_nl p = true -> Py.starts_with_nl s = true.
Proof.
  destruct s as [|a [|b r]].
  - intros E. injection E as <- _. discriminate.
  - intros E. injection E as <- _. exact (fun E => E).
  - rewrite split_blank_cons.
    destruct (Ascii.eqb a Py.LF && Ascii.eqb b Py.LF).
    + intros E. injection E as <- _. discriminate.
    + destruct (Py.split_blank (String b r)); simpl;
        intros E; injection E as <- _; exact (fun E => E).
Qed.

(** No piece of a split holds two line feeds in a row. *)
Lemma split_blank_pieces (s : string) :
  Forall (fun p => Py.has_blank p = false) (Py.split_blank s).
Proof.
  enough (Hboth : Forall (fun p => Py.has_blank p = false) (Py.split_blank s) /\
                  forall a, Forall (fun p => Py.has_blank p = false)
                              (Py.split_blank (String a s)))
    by apply Hboth.
  induction s as [|b r [IH0 IH1]].
  - split; [|intros a]; repeat constructor.
  - split; [apply IH1|]. intros a. rewrite split_blank_cons.
    destruct (Ascii.eqb a Py.LF && Ascii.eqb b Py.LF) eqn:E.
    + constructor; [reflexivity | exact IH0].
    + specialize (IH1 b).
      destruct (Py.split_blank (String b r)) as [|p rest] eqn:Es;
        [now elim (split_blank_nonempty (String b r))|].
      simpl. inversion IH1 as [|? ? Hp Hrest]; subst.
      constructor; [|exact Hrest].
      rewrite has_blank_cons, Hp, orb_false_r.
      destruct (Ascii.eqb a Py.LF) eqn:Ea; [|reflexivity]. simpl in E |- *.
      destruct (Py.starts_with_nl p) eqn:Ep; [|reflexivity].
      apply (split_head_starts _ _ _ Es) in Ep. simpl in Ep. congruence.
Qed.

(** X2: whatever the text, [index_content] on a directory that is absent or
    holds an index succeeds and appends to the documents found, in their
    order, at least one document; each document it writes is stripped and
    holds no blank line. *)
Theorem index_content_appends `{Libraries}
    (text : string) (w : world) (docs0 : list string) :
  existing_docs (index_dir w) = Some docs0 ->
  exists w' new,
    index_content text w = (w', Ok tt) /\
    index_dir w' = Index (docs0 ++ new) /\
    new <> [] /\
    Forall (fun c => Py.strip c = c /\ Py.has_blank c = false) new.
Proof.
  intros Hdocs.
  pose proof (index_content_spec text w docs0 Hdocs) as E. name_world E w'.
  exists w', (chunks_of text). repeat split; try assumption.
  - unfold chunks_of. intros Hnil. apply map_eq_nil in Hnil.
    exact (split_blank_nonempty text Hnil).
  - unfold chunks_of. apply Forall_map.
    apply (Forall_impl _ (P := fun p => Py.has_blank p = false));
      [|apply split_blank_pieces].
    intros p Hp. split; [apply strip_idem|].
    exact (has_blank_sub p _ (contains_strip p) Hp).
Qed.

Lemma index_content_appends_witness :
  exists w' new,
    index_content ("alpha " ++ Py.nl ++ Py.nl ++ Py.nl ++ "beta") Demo.indexed
    = (w', Ok tt) /\
    index_dir w' = Index (["Setup" ++ Py.nl ++ "Run init() first."] ++ new) /\
    new <> [] /\
    Forall (fun c => Py.strip c = c /\ Py.has_blank c = false) new.
Proof.
  apply (index_content_appends (H := Demo.libraries)
           ("alpha " ++ Py.nl ++ Py.nl ++ Py.nl ++ "beta") Demo.indexed
           ["Setup" ++ Py.nl ++ "Run init() first."]).
  reflexivity.
Defined.

(** ** Computations that leave the index alone *)

Lemma keeps_ret {A} (a : A) : keeps_index (ret a).
Proof. now intros w. Qed.

Lemma keeps_raise {A} (e : exn) : keeps_index (raise (A := A) e).
Proof. now intros w. Qed.

Lemma keeps_lift {A} (r : result A) : keeps_index (lift r).
Proof. now intros w. Qed.

Lemma keeps_emit (e : event) : keeps_index (emit e).
Proof. now intros w. Qed.

Lemma keeps_print (text : string) : keeps_index (print text).
Proof. now intros w. Qed.

Lemma keeps_get_dir : keeps_index get_dir.
Proof. now intros w. Qed.

Lemma keeps_bind {A B} (m : M A) (k : A -> M B) :
  keeps_index m -> (forall a, keeps_index (k a)) -> keeps_index (bind m k).
Proof.
  intros Hm Hk w. unfold bind. specialize (Hm w).
  destruct (m w) as [w1 [a | e]]; simpl in *; [now rewrite Hk | exact Hm].
Qed.

Lemma keeps_try {A} (body : M A) (handles : exn -> bool)
    (handler : exn -> M A) :
  keeps_index body -> (forall e, keeps_index (handler e)) ->
  keeps_index (try_except body handles handler).
Proof.
  intros Hb Hh w. unfold try_except. specialize (Hb w).
  destruct (body w) as [w1 [a | e]]; simpl in *; [exact Hb|].
  destruct (handles e); [now rewrite Hh | exact Hb].
Qed.

Create HintDb keeps.
#[local] Hint Resolve keeps_ret keeps_raise keeps_lift keeps_emit keeps_print
  keeps_get_dir : keeps.

(** Breaks a proof that a computation keeps the index into its steps. *)
Ltac keeps :=
  repeat first
    [ solve [auto with keeps]
    | apply keeps_bind; [|intros ?]
    | apply keeps_try; [|intros ?]
    | match goal with
      | |- keeps_index (match ?x with _ => _ end) => destruct x
      end ].

Lemma open_dir_keeps : keeps_index open_dir.
Proof. unfold open_dir. keeps. Qed.

#[local] Hint Resolve open_dir_keeps : keeps.

Lemma scrape_keeps_index `{Libraries} (url : string) :
  keeps_index (scrape_documentation url).
Proof. unfold scrape_documentation. keeps. Qed.

Lemma load_keeps_index `{Libraries} : keeps_index load_qa_model.
Proof. unfold load_qa_model. keeps. Qed.

Lemma search_keeps_index `{Libraries} (query : string) :
  keeps_index (search_content query).
Proof. unfold search_content. keeps. Qed.

Lemma answer_keeps_index `{Libraries} (query context : string)
    (qa : qa_pipeline) :
  keeps_index (answer_query query context qa).
Proof. unfold answer_query. keeps. Qed.

#[local] Hint Resolve search_keeps_index answer_keeps_index : keeps.

Lemma loop_body_keeps_index `{Libraries} (qa : qa_pipeline) (line : string) :
  keeps_index (loop_body qa line).
Proof. unfold loop_body. keeps. Qed.

Lemma interactive_keeps_any `{Libraries} (qa : qa_pipeline)
    (stdin : list string) :
  keeps_index (interactive qa stdin).
Proof.
  induction stdin as [|line rest IH]; cbn [interactive]; [keeps|].
  apply keeps_bind; [apply loop_body_keeps_index|].
  intros [|]; [apply keeps_ret | exact IH].
Qed.

(** ** The ranking of the results *)

Lemma insert_hit_sorted (h : hit) (hs : list hit) :
  StronglySorted outranks hs -> StronglySorted outranks (insert_hit h hs).
Proof.
  induction hs as [|x rest IH]; intros Hs; simpl.
  - repeat constructor.
  - inversion Hs as [|? ? Hrest Hx]; subst.
    destruct (hit_score h <? hit_score x)%nat eqn:E.
    + apply Nat.ltb_lt in E. constructor; [now apply IH|].
      apply Forall_forall. intros y Hy. apply In_insert_hit in Hy as [-> | Hy].
      * unfold outranks. lia.
      * now apply (proj1 (Forall_forall _ _) Hx).
    + apply Nat.ltb_ge in E. constructor; [exact Hs|].
      constructor; [exact E|].
      apply (Forall_impl _ (P := outranks x)); [|exact Hx].
      unfold outranks. intros y Hy. lia.
Qed.

Lemma sorted_hits (hs : list hit) :
  StronglySorted outranks (fold_right insert_hit [] hs).
Proof.
  induction hs as [|h hs IH]; simpl; [constructor | now apply insert_hit_sorted].
Qed.

(** The first of the sorted hits outranks every hit. *)
Lemma first_outranks (hs : list hit) (h x : hit) (rest : list hit) :
  fold_right insert_hit [] hs = h :: rest -> In x hs -> outranks h x.
Proof.
  intros E Hx. pose proof (sorted_hits hs) as Hs. rewrite E in Hs.
  apply (In_sorted x hs) in Hx. rewrite E in Hx.
  inversion Hs as [|? ? _ Hall]; subst.
  destruct Hx as [-> | Hx]; [unfold outranks; lia|].
  now apply (proj1 (Forall_forall _ _) Hall).
Qed.

Lemma In_enumerate_nth {A} (l : list A) (n k : nat) (a : A) :
  In (k, a) (enumerate n l) <-> exists i, k = n + i /\ nth_error l i = Some a.
Proof.
  revert n. induction l as [|b l IH]; intros n; simpl.
  - split; [tauto | intros ([|i] & _ & Hi); discriminate].
  - rewrite IH. split.
    + intros [E | (i & -> & Hi)].
      * injection E as <- <-. exists 0. split; [lia | reflexivity].
      * exists (S i). split; [lia | exact Hi].
    + intros ([|i] & -> & Hi); simpl in Hi.
      * injection Hi as ->. left. f_equal. lia.
      * right. exists i. split; [lia | exact Hi].
Qed.

(** A hit is a matching document with its number and its score. *)
Lemma In_hits_nth `{Libraries} (query : string) (ix : list string) (h : hit) :
  In h (hits query ix) <->
  nth_error ix (docnum h) = Some (stored h) /\
  matches query (stored h) = true /\
  hit_score h = score query ix (docnum h).
Proof.
  unfold hits. rewrite in_map_iff. split.
  - intros ([k d] & <- & Hin). apply filter_In in Hin as [Hin Hm].
    apply In_enumerate_nth in Hin as (i & -> & Hi). simpl in *. auto.
  - intros (Hn & Hm & Hs). exists (docnum h, stored h). split.
    + destruct h as [k sc d]. simpl in *. now subst.
    + apply filter_In. split; [|exact Hm].
      apply In_enumerate_nth. now exists (docnum h).
Qed.

(** X3: the retriever on an index that exists never raises; it returns the
    not-found signal exactly when the query matches no document, and
    otherwise the stored content of a matching document whose score no
    other matching document exceeds. *)
Theorem search_content_best `{Libraries}
    (query : string) (w : world) (docs : list string) :
  index_dir w = Index docs ->
  match snd (search_content query w) with
  | Ok None => forall d, In d docs -> matches query d = false
  | Ok (Some c) =>
      exists n, nth_error docs n = Some c /\ matches query c = true /\
                best_match query docs n
  | Raise _ => False
  end.
Proof.
  intros Hdir. rewrite (search_content_spec query w docs Hdir).
  destruct (search query docs) as [|h rest] eqn:Es; simpl.
  - now apply search_none.
  - unfold search in Es.
    destruct (fold_right insert_hit [] (hits query docs)) as [|h' rest'] eqn:E;
      [discriminate|].
    simpl in Es. injection Es as -> _.
    assert (Hh : In h (hits query docs)) by (apply In_sorted; rewrite E; now left).
    apply In_hits_nth in Hh as (Hn & Hm & Hs).
    exists (docnum h). repeat split; try assumption.
    intros k d Hk Hd. rewrite <- Hs.
    apply (first_outranks _ h (mkHit k (score query docs k) d) _ E).
    apply In_hits_nth. simpl. auto.
Qed.

Lemma search_content_best_witness :
  match snd (search_content (H := Demo.libraries) "init run"
               (mkWorld (Index ["run"; "init and run"; "run init init"]) []))
  with
  | Ok None =>
      forall d, In d ["run"; "init and run"; "run init init"] ->
                Demo.word_match "init run" d = false
  | Ok (Some c) =>
      exists n, nth_error ["run"; "init and run"; "run init init"] n = Some c /\
                Demo.word_match "init run" c = true /\
                best_match (H := Demo.libraries) "init run"
                  ["run"; "init and run"; "run init init"] n
  | Raise _ => False
  end.
Proof.
  apply (search_content_best (H := Demo.libraries) "init run"
           (mkWorld (Index ["run"; "init and run"; "run init init"]) [])
           ["run"; "init and run"; "run init init"]).
  reflexivity.
Defined.

(** ** What the fetch stage returns and raises *)

(** [raise_for_status] lets exactly the statuses outside 400..599 through. *)
Lemma raise_for_status_cases (r : response) :
  (raise_for_status r = Ok tt /\
   (status_code r < 400 \/ 600 <= status_code r)) \/
  (raise_for_status r = Raise (RequestException (http_error_msg r)) /\
   400 <= status_code r < 600).
Proof.
  destruct (le_lt_dec 400 (status_code r)) as [Hlo | Hlo];
    [destruct (le_lt_dec 600 (status_code r)) as [Hhi | Hhi]|].
  - left. split; [apply raise_for_status_pass|]; lia.
  - right. split; [apply raise_for_status_error|]; lia.
  - left. split; [apply raise_for_status_pass|]; lia.
Qed.

(** An exception of [requests.get] that is not a RequestException is not
    caught. *)
Lemma scrape_passes (url : string) `{Libraries} (w : world) (e : exn) :
  requests_get url = Raise e ->
  is_request_exception e = false ->
  snd (scrape_documentation url w) = Raise e.
Proof.
  intros Hget He.
  unfold scrape_documentation, try_except, bind, lift, print, emit.
  simpl. rewrite Hget. simpl. now rewrite He.
Qed.

(** X4: the fetch stage returns a text only for a response whose status is
    outside 400..599; the text is the stripped join of the texts of the
    scraped tags, so it has no whitespace at either end. *)
Theorem scrape_returns `{Libraries} (url : string) (w : world) (text : string) :
  snd (scrape_documentation url w) = Ok text ->
  (exists resp,
     requests_get url = Ok resp /\
     (status_code resp < 400 \/ 600 <= status_code resp) /\
     text = Py.strip (page_text (content resp))) /\
  Py.strip text = text.
Proof.
  intros Hrun.
  destruct (requests_get url) as [resp | e] eqn:Hget.
  - destruct (raise_for_status_cases resp) as [[Hst Hcode] | [Hst Hcode]].
    + rewrite (scrape_ok url w resp Hget Hst) in Hrun. injection Hrun as <-.
      split; [now exists resp | apply strip_idem].
    + rewrite (scrape_raises url w (RequestException (http_error_msg resp)))
        in Hrun; [discriminate | | reflexivity].
      right. now exists resp.
  - destruct (is_request_exception e) eqn:He.
    + rewrite (scrape_raises url w e) in Hrun; [discriminate | now left | exact He].
    + rewrite (scrape_passes url w e Hget He) in Hrun. discriminate.
Qed.

Lemma scrape_returns_witness :
  (exists resp,
     Demo.get "http://docs.example/padded" = Ok resp /\
     (status_code resp < 400 \/ 600 <= status_code resp) /\
     "padded" = Py.strip (page_text (H := Demo.libraries) (content resp))) /\
  Py.strip "padded" = "padded".
Proof.
  apply (scrape_returns (H := Demo.libraries) "http://docs.example/padded"
           Demo.fresh "padded").
  reflexivity.
Defined.

(** X5: an exception of [requests.get] is never swallowed and ends the
    fetch stage right after the fetch message, before anything is parsed or
    printed: a RequestException is raised again as the Exception
    "[ERROR] Failed to fetch URL: " followed by its text, and an exception
    of any other class, which the [except] clause does not name, passes
    unchanged. *)
Theorem scrape_get_raises `{Libraries} (url : string) (w : world) (e : exn) :
  requests_get url = Raise e ->
  scrape_documentation url w
  = (after w (fetching url),
     Raise (if is_request_exception e
            then Exception ("[ERROR] Failed to fetch URL: " ++ str e)
            else e)).
Proof.
  intros Hget. destruct (is_request_exception e) eqn:He.
  - apply scrape_raises; [now left | exact He].
  - unfold scrape_documentation, try_except, bind, lift, print, emit.
    simpl. rewrite Hget. simpl. rewrite He.
    unfold after, fetching. simpl. now rewrite <- app_assoc.
Qed.

Lemma scrape_get_raises_witness :
  scrape_documentation (H := Demo.libraries) "http://nowhere.example/"
    Demo.indexed
  = (after Demo.indexed (fetching "http://nowhere.example/"),
     Raise (if is_request_exception (RequestException "Connection refused")
            then Exception ("[ERROR] Failed to fetch URL: "
                            ++ str (RequestException "Connection refused"))
            else RequestException "Connection refused")).
Proof.
  apply (scrape_get_raises (H := Demo.libraries) "http://nowhere.example/"
           Demo.indexed (RequestException "Connection refused")).
  reflexivity.
Defined.

(** ** Loading the model and answering *)

Lemma load_spec `{Libraries} (w : world) :
  load_qa_model w
  = match pipeline "question-answering" "deepset/minilm-uncased-squad2" with
    | Ok qa =>
        (after w [Print "[STEP] Loading QA model...";
                  Print "[INFO] QA model loaded: deepset/minilm-uncased-squad2"],
         Ok qa)
    | Raise e =>
        (after w [Print "[STEP] Loading QA model..."],
         Raise (RuntimeError ("[ERROR] Failed to load model: " ++ str e)))
    end.
Proof.
  unfold load_qa_model, try_except, bind, lift, print, emit, ret, raise, after.
  simpl. destruct (pipeline _ _); simpl; now rewrite <- ?app_assoc.
Qed.

Lemma answer_spec `{Libraries} (query context : string) (qa : qa_pipeline)
    (w : world) :
  answer_query query context qa w
  = (after w [Print "[STEP] Running QA model..."; Infer query context],
     match qa query context with
     | Ok answer => Ok answer
     | Raise e => Raise (Exception ("[ERROR] Failed to answer query: " ++ str e))
     end).
Proof.
  unfold answer_query, try_except, bind, lift, print, emit, ret, raise, after.
  simpl. destruct (qa query context); simpl; now rewrite <- ?app_assoc.
Qed.

(** What a turn does with a query, by the outcome of the search and of the
    model. *)
Lemma loop_body_spec `{Libraries} (qa : qa_pipeline) (line : string)
    (w : world) (docs : list string) :
  index_dir w = Index docs ->
  Py.lower (Py.strip line) <> "exit" ->
  let query := Py.strip line in
  let searching := [Input query_prompt;
                    Print ("[STEP] Searching for: " ++ query)] in
  loop_body qa line w
  = match search query docs with
    | [] =>
        (after w (searching ++ [Print "[WARN] No relevant content found.";
                                Print handle_missing_info]), Ok false)
    | first :: _ =>
        if Py.truthy (stored first) then
          let asking := (searching
                         ++ [Print "[INFO] Relevant context found.";
                             Print "[STEP] Running QA model...";
                             Infer query (stored first)])%list in
          match qa query (stored first) with
          | Ok answer =>
              (after w (asking ++ [Print (" Answer: " ++ answer)]), Ok false)
          | Raise e =>
              (after w asking,
               Raise (Exception ("[ERROR] Failed to answer query: " ++ str e)))
          end
        else
          (after w (searching ++ [Print "[INFO] Relevant context found.";
                                  Print handle_missing_info]), Ok false)
    end.
Proof.
  intros Hdir Hne query searching.
  rewrite (loop_body_query qa line w Hne). unfold bind.
  rewrite (search_content_spec (Py.strip line)
             (after w [Input query_prompt]) docs Hdir).
  fold query. destruct (search query docs) as [|first rest].
  - unfold truthy_context, print, emit, ret, after. simpl.
    now rewrite <- !app_assoc.
  - unfold truthy_context. destruct (Py.truthy (stored first)).
    + rewrite answer_spec. destruct (qa query (stored first)).
      * unfold print, emit, ret, after. simpl. now rewrite <- !app_assoc.
      * unfold after. simpl. now rewrite <- !app_assoc.
    + unfold print, emit, ret, after. simpl. now rewrite <- !app_assoc.
Qed.

(** X6: a turn with a hit.  When the first result of the search holds a text
    that is not empty, the model is called once, with the stripped line as
    the question and that text as the context.  If it answers, the answer is
    printed and the loop goes on with the next line; if it raises, the turn
    raises an Exception whose message carries the text of the model's
    exception, and the loop ends there. *)
Theorem turn_with_hit `{Libraries}
    (qa : qa_pipeline) (line : string) (rest : list string) (w : world)
    (docs : list string) (first : hit) (others : list hit) :
  index_dir w = Index docs ->
  Py.lower (Py.strip line) <> "exit" ->
  search (Py.strip line) docs = first :: others ->
  stored first <> "" ->
  let query := Py.strip line in
  let asking := after w [Input query_prompt;
                         Print ("[STEP] Searching for: " ++ query);
                         Print "[INFO] Relevant context found.";
                         Print "[STEP] Running QA model...";
                         Infer query (stored first)] in
  match qa query (stored first) with
  | Ok answer =>
      interactive qa (line :: rest) w
      = interactive qa rest (after asking [Print (" Answer: " ++ answer)])
  | Raise e =>
      interactive qa (line :: rest) w
      = (asking, Raise (Exception ("[ERROR] Failed to answer query: " ++ str e)))
  end.
Proof.
  intros Hdir Hne Hsearch Hfull query asking.
  pose proof (loop_body_spec qa line w docs Hdir Hne) as Hbody.
  cbv zeta in Hbody. rewrite Hsearch in Hbody.
  assert (Ht : Py.truthy (stored first) = true)
    by (destruct (stored first); [congruence | reflexivity]).
  rewrite Ht in Hbody. fold query in Hbody.
  destruct (qa query (stored first)) as [answer | e];
    cbn [interactive]; unfold bind at 1; rewrite Hbody; [|reflexivity].
  unfold asking. now rewrite after_after.
Qed.

Lemma turn_with_hit_witness :
  interactive (H := Demo.libraries) Demo.model ["  init "; "exit"] Demo.indexed
  = interactive (H := Demo.libraries) Demo.model ["exit"]
      (after
         (after Demo.indexed
            [Input query_prompt;
             Print "[STEP] Searching for: init";
             Print "[INFO] Relevant context found.";
             Print "[STEP] Running QA model...";
             Infer "init" ("Setup" ++ Py.nl ++ "Run init() first.")])
         [Print (" Answer: " ++ "Setup" ++ Py.nl ++ "Run init() first.")]).
Proof.
  apply (turn_with_hit (H := Demo.libraries) Demo.model "  init " ["exit"]
           Demo.indexed ["Setup" ++ Py.nl ++ "Run init() first."]
           (mkHit 0 1 ("Setup" ++ Py.nl ++ "Run init() first.")) []).
  - reflexivity.
  - discriminate.
  - reflexivity.
  - discriminate.
Defined.

(** ** What the model is given *)

Lemma emitted_after (w : world) (events : list event) :
  emitted w (after w events) events.
Proof. reflexivity. Qed.

Lemma emitted_trans (w w1 w2 : world) (a b : list event) :
  emitted w w1 a -> emitted w1 w2 b -> emitted w w2 (a ++ b).
Proof. unfold emitted. intros E1 E2. now rewrite E2, E1, app_assoc. Qed.

(** Checks the events of a turn one by one. *)
Ltac each_grounded :=
  simpl;
  repeat first
    [ apply Forall_nil
    | apply Forall_cons; [first [exact I | assumption]|] ].

(** A turn calls the model, if at all, with a context that is grounded. *)
Lemma turn_grounded `{Libraries} (qa : qa_pipeline) (line : string)
    (w : world) (docs : list string) :
  index_dir w = Index docs ->
  exists events,
    emitted w (fst (loop_body qa line w)) events /\
    Forall (grounded docs) events.
Proof.
  intros Hdir.
  destruct (string_dec (Py.lower (Py.strip line)) "exit") as [He | Hne].
  - rewrite (loop_body_exit qa line w He). eexists. split;
      [apply emitted_after | each_grounded].
  - rewrite (loop_body_spec qa line w docs Hdir Hne). cbv zeta.
    destruct (search (Py.strip line) docs) as [|first rest] eqn:Es.
    + eexists. split; [apply emitted_after | each_grounded].
    + destruct (search_first _ _ _ _ Es) as [Hin Hm].
      destruct (Py.truthy (stored first)) eqn:Ht.
      * assert (Hg : grounded docs (Infer (Py.strip line) (stored first))).
        { repeat split; try assumption. intros E. now rewrite E in Ht. }
        destruct (qa (Py.strip line) (stored first)); eexists;
          (split; [apply emitted_after | each_grounded]).
      * eexists. split; [apply emitted_after | each_grounded].
Qed.

(** X7: during the loop the index stays as it is, and the model is only
    ever called with a context that is a document of the index, is not
    empty, and is matched by the question it comes with. *)
Theorem loop_grounded `{Libraries}
    (qa : qa_pipeline) (stdin : list string) (w : world) (docs : list string) :
  index_dir w = Index docs ->
  exists events,
    emitted w (fst (interactive qa stdin w)) events /\
    index_dir (fst (interactive qa stdin w)) = Index docs /\
    Forall (grounded docs) events.
Proof.
  intros Hdir.
  assert (Hkeep : index_dir (fst (interactive qa stdin w)) = Index docs)
    by now rewrite interactive_keeps_any.
  enough (Hev : exists events,
             emitted w (fst (interactive qa stdin w)) events /\
             Forall (grounded docs) events)
    by (destruct Hev as (events & He & Hg); now exists events).
  clear Hkeep. revert w Hdir.
  induction stdin as [|line rest IH]; intros w Hdir.
  - exists [Input query_prompt]. split; [reflexivity | each_grounded].
  - destruct (turn_grounded qa line w docs Hdir) as (ev1 & Hev1 & Hg1).
    pose proof (loop_body_keeps_index qa line w) as Hk. rewrite Hdir in Hk.
    cbn [interactive]. unfold bind.
    destruct (loop_body qa line w) as [w1 [[|] | e]]; simpl in Hev1, Hk |- *;
      try (now exists ev1).
    destruct (IH w1 Hk) as (ev2 & Hev2 & Hg2).
    exists (ev1 ++ ev2)%list. split;
      [exact (emitted_trans _ _ _ _ _ Hev1 Hev2) | now apply Forall_app].
Qed.

Lemma loop_grounded_witness :
  exists events,
    emitted Demo.indexed
      (fst (interactive (H := Demo.libraries) Demo.model
              ["init"; "xyzzy"; "first"; "exit"] Demo.indexed)) events /\
    index_dir (fst (interactive (H := Demo.libraries) Demo.model
                      ["init"; "xyzzy"; "first"; "exit"] Demo.indexed))
    = Index ["Setup" ++ Py.nl ++ "Run init() first."] /\
    Forall (grounded (H := Demo.libraries)
              ["Setup" ++ Py.nl ++ "Run init() first."]) events.
Proof.
  apply (loop_grounded (H := Demo.libraries) Demo.model
           ["init"; "xyzzy"; "first"; "exit"] Demo.indexed
           ["Setup" ++ Py.nl ++ "Run init() first."]).
  reflexivity.
Defined.

(** ** Sessions *)

Lemma main_unfold `{Libraries} (url_line : string) (stdin : list string)
    (w : world) :
  main (url_line :: stdin) w
  = try_except (session (Py.strip url_line) stdin) any_exception
      (fun e => print ("[FATAL ERROR] " ++ str e)) (after w greeting).
Proof.
  unfold main, bind, print, emit, greeting, after. simpl.
  now rewrite <- app_assoc.
Qed.

(** The handler of [main] turns an exception of the session into a line. *)
Lemma main_fatal `{Libraries} (url_line : string) (stdin : list string)
    (w w1 : world) (e : exn) :
  session (Py.strip url_line) stdin (after w greeting) = (w1, Raise e) ->
  main (url_line :: stdin) w = (after w1 [fatal e], Ok tt).
Proof.
  intros Hs. rewrite main_unfold. unfold try_except. now rewrite Hs.
Qed.

(** After a fetch and an indexing that succeed, the session loads the model
    and enters the loop. *)
Lemma session_setup `{Libraries} (url : string) (stdin : list string)
    (w : world) (resp : response) (docs0 : list string) :
  requests_get url = Ok resp ->
  raise_for_status resp = Ok tt ->
  existing_docs (index_dir w) = Some docs0 ->
  let text := Py.strip (page_text (content resp)) in
  session url stdin w
  = (qa <- load_qa_model ;; interactive qa stdin)
      (mkWorld (Index (docs0 ++ chunks_of text))
         (trace w ++ fetching url ++ scraped (page_text (content resp))
          ++ [Print "[STEP] Indexing content...";
              Print "[INFO] Content indexed."])).
Proof.
  intros Hget Hst Hdocs text. unfold session. unfold bind at 1 2.
  rewrite (scrape_ok url w resp Hget Hst). fold text.
  match goal with
  | |- context [index_content text ?w1] =>
      rewrite (index_content_spec text w1 docs0 Hdocs)
  end.
  unfold after, fetching, scraped. simpl. now rewrite <- !app_assoc.
Qed.

(** X8: when the fetch fails, with an exception of requests or a status from
    400 to 599, the session is over after the fatal line: the directory
    "index" is left as it was, the model is not loaded, and none of the
    lines typed after the URL is read. *)
Theorem main_fetch_failure `{Libraries}
    (url_line : string) (stdin : list string) (w : world) (cause : string) :
  (requests_get (Py.strip url_line) = Raise (RequestException cause) \/
   exists resp, requests_get (Py.strip url_line) = Ok resp /\
                400 <= status_code resp < 600 /\
                http_error_msg resp = cause) ->
  main (url_line :: stdin) w
  = (after w (greeting ++ fetching (Py.strip url_line)
              ++ [fatal (Exception ("[ERROR] Failed to fetch URL: " ++ cause))]),
     Ok tt).
Proof.
  intros Hfail.
  assert (Hraise : requests_get (Py.strip url_line)
                   = Raise (RequestException cause) \/
                   exists resp, requests_get (Py.strip url_line) = Ok resp /\
                     raise_for_status resp = Raise (RequestException cause)).
  { destruct Hfail as [Hget | (resp & Hget & Hst & <-)]; [now left|].
    right. exists resp. split; [exact Hget|]. now apply raise_for_status_error. }
  rewrite (main_fatal url_line stdin w
             (after w (greeting ++ fetching (Py.strip url_line)))
             (Exception ("[ERROR] Failed to fetch URL: " ++ cause))).
  - rewrite after_after, <- app_assoc. reflexivity.
  - unfold session, bind.
    rewrite (scrape_raises _ _ (RequestException cause) Hraise eq_refl).
    now rewrite after_after.
Qed.

Lemma main_fetch_failure_witness :
  main (H := Demo.libraries) [" http://docs.example/gone "; "init"; "exit"]
    Demo.indexed
  = (after Demo.indexed
       (greeting ++ fetching "http://docs.example/gone"
        ++ [fatal (Exception
                     ("[ERROR] Failed to fetch URL: "
                      ++ "404 Client Error: Not Found for url: http://docs.example/gone"))]),
     Ok tt).
Proof.
  apply (main_fetch_failure (H := Demo.libraries) " http://docs.example/gone "
           ["init"; "exit"] Demo.indexed
           "404 Client Error: Not Found for url: http://docs.example/gone").
  right. exists (mkResponse 404 "Not Found" "http://docs.example/gone"
                   "<p>no such page</p>").
  split; [reflexivity|]. split; [simpl; lia | reflexivity].
Defined.

(** X9: when a directory "index" exists without an index in it, a session
    whose fetch succeeds ends with a fatal error as soon as it starts to
    index: the directory is left as it was, the model is not loaded and no
    question is read. *)
Theorem main_foreign_index `{Libraries}
    (url_line : string) (stdin : list string) (w : world) (resp : response) :
  requests_get (Py.strip url_line) = Ok resp ->
  raise_for_status resp = Ok tt ->
  index_dir w = Foreign ->
  main (url_line :: stdin) w
  = (after w (greeting ++ fetching (Py.strip url_line)
              ++ scraped (page_text (content resp))
              ++ [Print "[STEP] Indexing content...";
                  fatal (EmptyIndexError
                           "Index 'MAIN' does not exist in FileStorage('index')")]),
     Ok tt).
Proof.
  intros Hget Hst Hdir.
  rewrite (main_fatal url_line stdin w
             (after w (greeting ++ fetching (Py.strip url_line)
                       ++ scraped (page_text (content resp))
                       ++ [Print "[STEP] Indexing content..."]))
             (EmptyIndexError
                "Index 'MAIN' does not exist in FileStorage('index')")).
  - rewrite after_after, <- !app_assoc. reflexivity.
  - unfold session. unfold bind at 1 2.
    rewrite (scrape_ok _ _ resp Hget Hst).
    unfold index_content, open_dir, bind, print, emit, get_dir, raise, after.
    simpl. rewrite Hdir. simpl. unfold fetching, scraped, greeting. simpl.
    now rewrite <- !app_assoc.
Qed.

Lemma main_foreign_index_witness :
  main (H := Demo.libraries) ["http://docs.example/setup"; "init"] Demo.foreign
  = (after Demo.foreign
       (greeting ++ fetching "http://docs.example/setup"
        ++ scraped ("Setup" ++ Py.nl ++ "Run init() first.")
        ++ [Print "[STEP] Indexing content...";
            fatal (EmptyIndexError
                     "Index 'MAIN' does not exist in FileStorage('index')")]),
     Ok tt).
Proof.
  apply (main_foreign_index (H := Demo.libraries) "http://docs.example/setup"
           ["init"] Demo.foreign
           (mkResponse 200 "OK" "http://docs.example/setup"
              "<h1>Setup</h1><p>Run init() first.</p>")).
  - reflexivity.
  - reflexivity.
  - reflexivity.
Defined.

(** X10: when the model cannot be loaded, the session ends with a fatal
    error that carries the cause, without reading a question; by then the
    page has been indexed, and its chunks stay in the index. *)
Theorem main_model_failure `{Libraries}
    (url_line : string) (stdin : list string) (w : world) (resp : response)
    (docs0 : list string) (e : exn) :
  requests_get (Py.strip url_line) = Ok resp ->
  raise_for_status resp = Ok tt ->
  existing_docs (index_dir w) = Some docs0 ->
  pipeline "question-answering" "deepset/minilm-uncased-squad2" = Raise e ->
  main (url_line :: stdin) w
  = (mkWorld
       (Index (docs0 ++ chunks_of (Py.strip (page_text (content resp)))))
       (trace w ++ greeting ++ fetching (Py.strip url_line)
        ++ scraped (page_text (content resp))
        ++ [Print "[STEP] Indexing content...";
            Print "[INFO] Content indexed.";
            Print "[STEP] Loading QA model...";
            fatal (RuntimeError ("[ERROR] Failed to load model: " ++ str e))]),
     Ok tt).
Proof.
  intros Hget Hst Hdocs Hload.
  erewrite main_fatal.
  2:{ rewrite (session_setup _ stdin (after w greeting) resp docs0 Hget Hst Hdocs).
      unfold bind. rewrite load_spec, Hload. reflexivity. }
  unfold after, fetching, scraped, greeting. simpl.
  now rewrite <- !app_assoc.
Qed.

Lemma main_model_failure_witness :
  main (H := Demo.offline) ["http://docs.example/setup"; "init"] Demo.fresh
  = (mkWorld
       (Index ([] ++ chunks_of
                       (Py.strip
                          (page_text (H := Demo.offline)
                             "<h1>Setup</h1><p>Run init() first.</p>"))))
       ([] ++ greeting ++ fetching "http://docs.example/setup"
        ++ scraped (page_text (H := Demo.offline)
                      "<h1>Setup</h1><p>Run init() first.</p>")
        ++ [Print "[STEP] Indexing content...";
            Print "[INFO] Content indexed.";
            Print "[STEP] Loading QA model...";
            fatal (RuntimeError
                     ("[ERROR] Failed to load model: "
                      ++ "model hub unreachable"))]),
     Ok tt).
Proof.
  apply (main_model_failure (H := Demo.offline) "http://docs.example/setup"
           ["init"] Demo.fresh
           (mkResponse 200 "OK" "http://docs.example/setup"
              "<h1>Setup</h1><p>Run init() first.</p>")
           [] (OtherError "model hub unreachable")).
  - reflexivity.
  - reflexivity.
  - reflexivity.
  - reflexivity.
Defined.

(** The index a session leaves when the fetch and the opening of the index
    succeed. *)
Lemma main_index `{Libraries} (url_line : string) (stdin : list string)
    (w : world) (resp : response) (docs0 : list string) :
  requests_get (Py.strip url_line) = Ok resp ->
  raise_for_status resp = Ok tt ->
  existing_docs (index_dir w) = Some docs0 ->
  index_dir (fst (main (url_line :: stdin) w))
  = Index (docs0 ++ chunks_of (Py.strip (page_text (content resp)))).
Proof.
  intros Hget Hst Hdocs. rewrite main_unfold. unfold try_except.
  rewrite (session_setup _ stdin (after w greeting) resp docs0 Hget Hst Hdocs).
  cbv zeta.
  match goal with
  | |- context [(qa <- load_qa_model ;; interactive qa stdin) ?w2] =>
      assert (Hk : keeps_index (qa <- load_qa_model ;; interactive qa stdin))
        by (apply keeps_bind;
            [apply load_keeps_index | intros qa; apply interactive_keeps_any]);
      specialize (Hk w2);
      destruct ((qa <- load_qa_model ;; interactive qa stdin) w2)
        as [w3 [[] | e]]
  end; simpl in *; exact Hk.
Qed.

(** X11: a session whose fetch succeeds, on a directory that is absent or
    holds an index, adds the chunks of the page to the index exactly once,
    whatever happens afterwards (the model failing to load, a turn raising,
    the end of the input); a second session on the same URL adds them
    again, after the first ones. *)
Theorem main_indexes_once `{Libraries}
    (url_line : string) (stdin stdin' : list string) (w : world)
    (resp : response) (docs0 : list string) :
  requests_get (Py.strip url_line) = Ok resp ->
  raise_for_status resp = Ok tt ->
  existing_docs (index_dir w) = Some docs0 ->
  let chunks := chunks_of (Py.strip (page_text (content resp))) in
  let w1 := fst (main (url_line :: stdin) w) in
  index_dir w1 = Index (docs0 ++ chunks) /\
  index_dir (fst (main (url_line :: stdin') w1))
  = Index (docs0 ++ chunks ++ chunks).
Proof.
  intros Hget Hst Hdocs chunks w1.
  assert (H1 : index_dir w1 = Index (docs0 ++ chunks))
    by exact (main_index url_line stdin w resp docs0 Hget Hst Hdocs).
  split; [exact H1|]. rewrite app_assoc.
  apply (main_index url_line stdin' w1 resp (docs0 ++ chunks) Hget Hst).
  now rewrite H1.
Qed.

Lemma main_indexes_once_witness :
  let chunks := chunks_of
                  (Py.strip (page_text (H := Demo.libraries)
                               "<p>a</p><p></p><p>b</p>")) in
  let w1 := fst (main (H := Demo.libraries)
                   ["http://docs.example/gaps"; "run"; "exit"] Demo.fresh) in
  index_dir w1 = Index ([] ++ chunks) /\
  index_dir (fst (main (H := Demo.libraries)
                    ["http://docs.example/gaps"] w1))
  = Index ([] ++ chunks ++ chunks).
Proof.
  apply (main_indexes_once (H := Demo.libraries) "http://docs.example/gaps"
           ["run"; "exit"] [] Demo.fresh
           (mkResponse 200 "OK" "http://docs.example/gaps"
              "<p>a</p><p></p><p>b</p>") []).
  - reflexivity.
  - reflexivity.
  - reflexivity.
Defined.

(** X12: where the input ends decides what becomes of the EOFError of
    [input].  The prompt for the URL is outside the [try] of [main]: when
    the input ends there, the EOFError leaves [main] uncaught, after the
    greeting.  The prompt for a question is inside: when the input ends
    there, after a setup that succeeds, the handler prints the EOFError as
    a fatal error and [main] returns. *)
Theorem main_end_of_input `{Libraries}
    (url_line : string) (w : world) (resp : response) (docs0 : list string)
    (qa : qa_pipeline) :
  requests_get (Py.strip url_line) = Ok resp ->
  raise_for_status resp = Ok tt ->
  existing_docs (index_dir w) = Some docs0 ->
  pipeline "question-answering" "deepset/minilm-uncased-squad2" = Ok qa ->
  main [] w = (after w greeting, Raise EOFError) /\
  main [url_line] w
  = (mkWorld
       (Index (docs0 ++ chunks_of (Py.strip (page_text (content resp)))))
       (trace w ++ greeting ++ fetching (Py.strip url_line)
        ++ scraped (page_text (content resp))
        ++ [Print "[STEP] Indexing content...";
            Print "[INFO] Content indexed.";
            Print "[STEP] Loading QA model...";
            Print "[INFO] QA model loaded: deepset/minilm-uncased-squad2";
            Input query_prompt;
            Print "[FATAL ERROR] EOF when reading a line"]),
     Ok tt).
Proof.
  intros Hget Hst Hdocs Hload. split.
  - unfold main, bind, print, emit, raise, greeting, after. simpl.
    now rewrite <- app_assoc.
  - erewrite main_fatal.
    2:{ rewrite (session_setup _ [] (after w greeting) resp docs0 Hget Hst Hdocs).
        unfold bind at 1. rewrite load_spec, Hload. reflexivity. }
    unfold after, fetching, scraped, greeting, fatal. simpl.
    now rewrite <- !app_assoc.
Qed.

Lemma main_end_of_input_witness :
  main (H := Demo.libraries) [] Demo.fresh
  = (after Demo.fresh greeting, Raise EOFError) /\
  main (H := Demo.libraries) ["http://docs.example/setup"] Demo.fresh
  = (mkWorld
       (Index ([] ++ chunks_of
                       (Py.strip
                          (page_text (H := Demo.libraries)
                             "<h1>Setup</h1><p>Run init() first.</p>"))))
       ([] ++ greeting ++ fetching "http://docs.example/setup"
        ++ scraped (page_text (H := Demo.libraries)
                      "<h1>Setup</h1><p>Run init() first.</p>")
        ++ [Print "[STEP] Indexing content...";
            Print "[INFO] Content indexed.";
            Print "[STEP] Loading QA model...";
            Print "[INFO] QA model loaded: deepset/minilm-uncased-squad2";
            Input query_prompt;
            Print "[FATAL ERROR] EOF when reading a line"]),
     Ok tt).
Proof.
  apply (main_end_of_input (H := Demo.libraries) "http://docs.example/setup"
           Demo.fresh
           (mkResponse 200 "OK" "http://docs.example/setup"
              "<h1>Setup</h1><p>Run init() first.</p>")
           [] Demo.model).
  - reflexivity.
  - reflexivity.
  - reflexivity.
  - reflexivity.
Defined.

(** X13: a session in which no line typed after the URL is an exit command
    never ends with the farewell: the last thing it prints is a fatal
    error, at the latest the one for the end of the input. *)
Theorem main_without_exit `{Libraries}
    (url_line : string) (stdin : list string) (w : world) :
  Forall (fun line => Py.lower (Py.strip line) <> "exit") stdin ->
  exists e,
    last_event (trace (fst (main (url_line :: stdin) w))) = Some (fatal e).
Proof.
  intros Hnone. rewrite main_unfold. unfold try_except.
  destruct (session (Py.strip url_line) stdin (after w greeting))
    as [w1 [[] | e]] eqn:Hs.
  - destruct (session_returns _ _ _ _ Hs) as (_ & pre & line & post & E & He & _).
    apply (proj1 (Forall_forall _ _)) with (x := line) in Hnone;
      [now elim Hnone|].
    rewrite E. apply in_or_app. right. now left.
  - exists e. simpl. apply last_event_snoc.
Qed.

Lemma main_without_exit_witness :
  exists e,
    last_event
      (trace (fst (main (H := Demo.libraries)
                     ["http://docs.example/setup"; "init"; "exit now"]
                     Demo.fresh)))
    = Some (fatal e).
Proof.
  apply (main_without_exit (H := Demo.libraries) "http://docs.example/setup"
           ["init"; "exit now"] Demo.fresh).
  repeat constructor; discriminate.
Defined.

(** What follows the exit command does not matter to the loop. *)
Lemma interactive_after_exit `{Libraries} (qa : qa_pipeline)
    (pre : list string) (line : string) (post : list string) (w : world) :
  Py.lower (Py.strip line) = "exit" ->
  interactive qa (pre ++ line :: post) w = interactive qa (pre ++ [line]) w.
Proof.
  intros He. revert w. induction pre as [|l pre IH]; intros w.
  - cbn [app interactive]. unfold bind.
    now rewrite (loop_body_exit qa line w He).
  - cbn [app interactive]. unfold bind.
    destruct (loop_body qa l w) as [w1 [[|] | e]]; auto.
Qed.

(** X14: the lines typed after an exit command are never read: a session
    runs the same, to the same world, whatever follows the first exit
    command. *)
Theorem main_after_exit `{Libraries}
    (url_line : string) (pre : list string) (line : string)
    (post : list string) (w : world) :
  Py.lower (Py.strip line) = "exit" ->
  main (url_line :: pre ++ line :: post) w
  = main (url_line :: pre ++ [line]) w.
Proof.
  intros He. rewrite !main_unfold. unfold try_except.
  assert (Hs : session (Py.strip url_line) (pre ++ line :: post)
                 (after w greeting)
               = session (Py.strip url_line) (pre ++ [line]) (after w greeting)).
  { unfold session, bind.
    destruct (scrape_documentation _ _) as [w1 [text | e]]; [|reflexivity].
    destruct (index_content text w1) as [w2 [[] | e]]; [|reflexivity].
    destruct (load_qa_model w2) as [w3 [qa | e]]; [|reflexivity].
    now apply interactive_after_exit. }
  now rewrite Hs.
Qed.

Lemma main_after_exit_witness :
  main (H := Demo.libraries)
    (["http://docs.example/setup"] ++ ["init"] ++ " EXIT " :: ["run"; "more"])
    Demo.fresh
  = main (H := Demo.libraries)
      (["http://docs.example/setup"] ++ ["init"] ++ [" EXIT "]) Demo.fresh.
Proof.
  apply (main_after_exit (H := Demo.libraries) "http://docs.example/setup"
           ["init"] " EXIT " ["run"; "more"] Demo.fresh).
  reflexivity.
Defined.
